(** * PathDiverge: the career simulation engine of [backend/simulator.py]

    A shallow embedding of the Monte Carlo engine and the properties its
    specification states about it.

    Modelling conventions.
    - Career states are Python [str] values, so they are [string] here; the
      code never checks that a state belongs to [STATES], and neither does
      the model.
    - A Python [dict] is an association list in insertion order: the order
      of a transition row is the order of the population handed to
      [random.choices].
    - Python floats are read as exact rationals ([Q]); every literal of the
      source is the rational it denotes.  Integers are [Z].  The code's
      binary64 results differ from these rationals by rounding error (a
      normalized row sums to 1.0 up to a unit in the last place), so
      properties of normalized rows are stated with a tolerance of 1e-9.
    - The module-level generator of [random] is a stream of draws
      ([nat -> Q]) threaded through the code; the theorems quantify over
      every stream.
    - A call either returns or raises: [result]. *)

From Stdlib Require Import QArith ZArith String List Bool Lia Lqa Qround Qabs.
Import ListNotations.
Open Scope string_scope.
Open Scope list_scope.
Open Scope Q_scope.

(** ** Python values *)

(** [max(a, b)] keeps [a] unless [b] is strictly greater; [min(a, b)] keeps
    [a] unless [b] is strictly smaller. *)
Definition Qltb (a b : Q) : bool := negb (Qle_bool b a).
Definition py_max (a b : Q) : Q := if Qltb a b then b else a.
Definition py_min (a b : Q) : Q := if Qltb b a then b else a.

(** [x in [s1, ..., sn]] on strings. *)
Definition py_in (x : string) (l : list string) : bool :=
  existsb (String.eqb x) l.

(** Dictionaries keyed by strings, in insertion order. *)
Definition dict (V : Type) : Type := list (string * V).

Fixpoint dict_get {V} (d : dict V) (k : string) : option V :=
  match d with
  | [] => None
  | (k', v) :: d' => if String.eqb k' k then Some v else dict_get d' k
  end.

(** [d.get(k, dflt)] *)
Definition dict_get_default {V} (d : dict V) (k : string) (dflt : V) : V :=
  match dict_get d k with Some v => v | None => dflt end.

(** [k in d] *)
Definition dict_mem {V} (d : dict V) (k : string) : bool :=
  match dict_get d k with Some _ => true | None => false end.

(** [d[k] = v]: overwrite in place, or append a new key at the end. *)
Fixpoint dict_set {V} (d : dict V) (k : string) (v : V) : dict V :=
  match d with
  | [] => [(k, v)]
  | (k', v') :: d' =>
      if String.eqb k' k then (k', v) :: d' else (k', v') :: dict_set d' k v
  end.

Definition keys {V} (d : dict V) : list string := map fst d.
Definition values {V} (d : dict V) : list V := map snd d.

(** [sum(values)] *)
Definition Qsum (l : list Q) : Q := fold_left Qplus l 0.

(** Exceptions the engine can meet, and the outcome of a call. *)
Inductive exn : Type :=
| ZeroDivisionError
| KeyError (k : string)
| ValueError (msg : string)
| IndexError.

Inductive result (A : Type) : Type :=
| Ok (a : A)
| Raise (e : exn).
Arguments Ok {A} a.
Arguments Raise {A} e.

(** ** Career states and base transitions *)

Definition STATES : list string :=
  [ "Entry Level"; "Junior"; "Mid-Level"; "Senior";
    "Lead"; "Manager"; "Director"; "VP"; "C-Suite";
    "Retired"; "Unemployed" ].

Definition TRANSITIONS : dict (dict Q) :=
  [ ("Entry Level", [("Entry Level", 0.45); ("Junior", 0.30); ("Mid-Level", 0.05); ("Unemployed", 0.20)]);
    ("Junior", [("Junior", 0.40); ("Mid-Level", 0.30); ("Senior", 0.05); ("Entry Level", 0.10); ("Unemployed", 0.15)]);
    ("Mid-Level", [("Mid-Level", 0.50); ("Senior", 0.20); ("Lead", 0.05); ("Junior", 0.10); ("Unemployed", 0.15)]);
    ("Senior", [("Senior", 0.55); ("Lead", 0.15); ("Manager", 0.10); ("Mid-Level", 0.10); ("Unemployed", 0.10)]);
    ("Lead", [("Lead", 0.50); ("Manager", 0.20); ("Director", 0.05); ("Senior", 0.15); ("Unemployed", 0.10)]);
    ("Manager", [("Manager", 0.55); ("Director", 0.15); ("Lead", 0.15); ("Senior", 0.05); ("Unemployed", 0.10)]);
    ("Director", [("Director", 0.60); ("VP", 0.10); ("Manager", 0.15); ("Unemployed", 0.15)]);
    ("VP", [("VP", 0.65); ("C-Suite", 0.08); ("Director", 0.15); ("Unemployed", 0.12)]);
    ("C-Suite", [("C-Suite", 0.70); ("VP", 0.10); ("Unemployed", 0.10); ("Retired", 0.10)]);
    ("Retired", [("Retired", 1.0)]);
    ("Unemployed", [("Unemployed", 0.40); ("Entry Level", 0.30); ("Junior", 0.18); ("Mid-Level", 0.10); ("Retired", 0.02)]) ].

(** ** CareerProfile *)

Record CareerProfile : Type := mkProfile {
  early_specialization : bool;
  risk_tolerance : string;
  unemployment_history : list Z;
  burnout_score : Q;
  momentum_score : Q;
  total_demotions : Z;
  total_promotions : Z
}.

(** [CareerProfile(early_specialization, risk_tolerance)] *)
Definition new_profile (early : bool) (risk : string) : CareerProfile :=
  mkProfile early risk [] 0 0 0%Z 0%Z.

Definition stress_levels : dict Q :=
  [ ("C-Suite", 5); ("VP", 4); ("Director", 3); ("Manager", 2); ("Lead", 2);
    ("Senior", 1); ("Mid-Level", 0); ("Junior", 0); ("Entry Level", 0);
    ("Unemployed", -2) ].

Definition update_burnout (self : CareerProfile) (current_state : string)
    (years_worked : Z) : CareerProfile :=
  let b := burnout_score self + dict_get_default stress_levels current_state 0 in
  let b := py_max 0 (b - 0.5) in
  mkProfile (early_specialization self) (risk_tolerance self)
            (unemployment_history self) b (momentum_score self)
            (total_demotions self) (total_promotions self).

(** The rank table of [update_momentum] and [get_peak_position]. *)
Definition state_ranks : dict Z :=
  [ ("Entry Level", 1); ("Junior", 2); ("Mid-Level", 3); ("Senior", 4);
    ("Lead", 5); ("Manager", 6); ("Director", 7); ("VP", 8); ("C-Suite", 9);
    ("Unemployed", 0); ("Retired", 0) ]%Z.

Definition update_momentum (self : CareerProfile) (old_state new_state : string)
    : CareerProfile :=
  let old_rank := dict_get_default state_ranks old_state 0%Z in
  let new_rank := dict_get_default state_ranks new_state 0%Z in
  let '(m, dem, pro) :=
    if (new_rank >? old_rank)%Z then
      (momentum_score self + 2, total_demotions self, (total_promotions self + 1)%Z)
    else if (new_rank <? old_rank)%Z then
      (py_max 0 (momentum_score self - 3), (total_demotions self + 1)%Z, total_promotions self)
    else
      (momentum_score self, total_demotions self, total_promotions self) in
  let m := py_max 0 (m * 0.9) in
  mkProfile (early_specialization self) (risk_tolerance self)
            (unemployment_history self) (burnout_score self) m dem pro.

(** [profile.unemployment_history.append(year)] *)
Definition record_unemployment (self : CareerProfile) (year : Z) : CareerProfile :=
  mkProfile (early_specialization self) (risk_tolerance self)
            (unemployment_history self ++ [year]) (burnout_score self)
            (momentum_score self) (total_demotions self) (total_promotions self).

(** ** Retirement policy *)

Definition get_retirement_probability (profile : CareerProfile)
    (current_state : string) (years_worked : Z) (age : Z) : Q :=
  if String.eqb current_state "Retired" then 1.0
  else if (age <? 55)%Z then 0.0
  else
    let base_prob :=
      if (age <? 58)%Z then 0.005
      else if (age <? 62)%Z then 0.03
      else if (age <? 65)%Z then 0.12
      else if (age <? 68)%Z then 0.30
      else 0.60 in
    let burnout_factor := py_min (burnout_score profile / 150) 0.15 in
    let momentum_factor := - py_min (momentum_score profile / 80) 0.10 in
    let base_prob :=
      if (age >? 60)%Z && py_in current_state ["Entry Level"; "Junior"; "Mid-Level"]
      then base_prob + 0.10 else base_prob in
    let base_prob :=
      if py_in current_state ["C-Suite"; "VP"; "Director"]
      then base_prob - 0.05 else base_prob in
    let base_prob :=
      if String.eqb current_state "Unemployed" && (age >? 58)%Z
      then base_prob + 0.15 else base_prob in
    py_max 0 (py_min 1.0 (base_prob + burnout_factor + momentum_factor)).

(** ** Transition modifier *)

(** [modified[k] = modified.get(k, 0) * c] *)
Definition scale (modified : dict Q) (k : string) (c : Q) : dict Q :=
  dict_set modified k (dict_get_default modified k 0 * c).

(** The row after the specialization and risk rules, before normalization. *)
Definition decision_modified (profile : CareerProfile) (transitions : dict Q)
    (current_state : string) : dict Q :=
  let modified := transitions in
  let modified :=
    if early_specialization profile then
      if py_in current_state ["Entry Level"; "Junior"] then
        fold_left
          (fun m state =>
             if py_in state ["Junior"; "Mid-Level"; "Senior"]
             then scale m state 1.3 else m)
          (keys modified) modified
      else if py_in current_state ["Senior"; "Lead"] then
        scale modified current_state 1.2
      else modified
    else
      if py_in current_state ["Manager"; "Director"; "VP"] then
        fold_left
          (fun m state => if dict_mem m state then scale m state 1.25 else m)
          ["Director"; "VP"; "C-Suite"] modified
      else modified in
  if String.eqb (risk_tolerance profile) "high" then
    if String.eqb current_state "Unemployed" then
      let modified := scale modified "Mid-Level" 1.5 in
      scale modified "Unemployed" 0.75
    else if py_in current_state ["Senior"; "Lead"; "Manager"] then
      fold_left
        (fun m state =>
           if dict_mem m state && negb (String.eqb state current_state)
           then scale m state 1.35 else m)
        ["Lead"; "Manager"; "Director"] modified
    else if py_in current_state ["Director"; "VP"] then
      fold_left
        (fun m state => if dict_mem m state then scale m state 1.40 else m)
        ["VP"; "C-Suite"] modified
    else modified
  else if String.eqb (risk_tolerance profile) "low" then
    let modified :=
      if String.eqb current_state "Unemployed" then
        let modified := scale modified "Entry Level" 1.3 in
        scale modified "Unemployed" 1.05
      else modified in
    if dict_mem modified current_state
    then scale modified current_state 1.15 else modified
  else modified.

(** [{k: v/total for k, v in modified.items()}] *)
Definition normalize (modified : dict Q) (total : Q) : dict Q :=
  map (fun kv => (fst kv, snd kv / total)) modified.

Definition apply_decision_modifiers (profile : CareerProfile)
    (transitions : dict Q) (current_state : string) (years_worked : Z)
    : dict Q :=
  let modified := decision_modified profile transitions current_state in
  let total := Qsum (values modified) in
  if Qltb 0 total then normalize modified total else modified.

(** ** The random generator *)

(** The state of [random]: the stream of the draws to come. *)
Definition Rng : Type := nat -> Q.

(** A computation that draws from the generator and may raise. *)
Definition M (A : Type) : Type := Rng -> result (A * Rng).

Definition ret {A} (a : A) : M A := fun g => Ok (a, g).
Definition raise {A} (e : exn) : M A := fun _ => Raise e.
Definition bind {A B} (m : M A) (f : A -> M B) : M B :=
  fun g => match m g with
           | Ok (a, g') => f a g'
           | Raise e => Raise e
           end.

Notation "x <- m ;; k" := (bind m (fun x => k))
  (at level 61, m at next level, right associativity).

(** [for b in l: a = f(a, b)] *)
Fixpoint foldM {A B} (f : A -> B -> M A) (l : list B) (a : A) : M A :=
  match l with
  | [] => ret a
  | b :: l' => a' <- f a b ;; foldM f l' a'
  end.

(** [range(n)] *)
Definition range (n : Z) : list Z := map Z.of_nat (seq 0 (Z.to_nat n)).

(** [random.random()] *)
Definition random_random : M Q :=
  fun g => Ok (g 0%nat, fun n => g (S n)).

(** [itertools.accumulate(weights)] *)
Fixpoint accumulate_from (acc : Q) (ws : list Q) : list Q :=
  match ws with
  | [] => []
  | w :: ws' => (acc + w) :: accumulate_from (acc + w) ws'
  end.

Definition accumulate (ws : list Q) : list Q :=
  match ws with
  | [] => []
  | w :: ws' => w :: accumulate_from w ws'
  end.

(** [bisect.bisect_right(a, x, 0, hi)] on a nondecreasing [a]: the first
    index below [hi] whose entry exceeds [x], else [hi]. *)
Fixpoint bisect (a : list Q) (x : Q) (hi : nat) : nat :=
  match hi, a with
  | S hi', c :: a' => if Qltb x c then O else S (bisect a' x hi')
  | _, _ => O
  end.

(** [random.choices(population, weights=weights, k=1)[0]] *)
Definition random_choices (population : list string) (weights : list Q)
    : M string :=
  let cum_weights := accumulate weights in
  let n := length population in
  if negb (Nat.eqb (length cum_weights) n) then
    raise (ValueError "The number of weights does not match the population")
  else
    match rev cum_weights with
    | [] => raise IndexError
    | total :: _ =>
        if Qle_bool total 0 then
          raise (ValueError "Total of weights must be greater than zero")
        else
          u <- random_random ;;
          ret (nth (bisect cum_weights (u * total) (n - 1)) population "")
    end.

(** ** One trajectory *)

(** The variables of the loop of [simulate_career]. *)
Record career_loop : Type := mkLoop {
  current_state : string;
  career_path : list string;
  current_age : Z;
  loop_profile : CareerProfile
}.

(** The body of [for year in range(max_years)]. *)
Definition simulate_year (st : career_loop) (year : Z) : M career_loop :=
  let current_age := (current_age st + 1)%Z in
  let current_state := current_state st in
  if String.eqb current_state "Retired" then
    ret (mkLoop current_state (career_path st ++ [current_state])
                current_age (loop_profile st))
  else
    let profile := update_burnout (loop_profile st) current_state year in
    let retirement_prob :=
      get_retirement_probability profile current_state year current_age in
    u <- random_random ;;
    if Qltb u retirement_prob then
      ret (mkLoop "Retired" (career_path st ++ ["Retired"]) current_age profile)
    else
      match dict_get TRANSITIONS current_state with
      | None => raise (KeyError current_state)
      | Some base_transitions =>
          let modified_transitions :=
            apply_decision_modifiers profile base_transitions current_state year in
          let next_states := keys modified_transitions in
          let probabilities := values modified_transitions in
          let old_state := current_state in
          next_state <- random_choices next_states probabilities ;;
          let profile := update_momentum profile old_state next_state in
          let profile :=
            if String.eqb next_state "Unemployed"
            then record_unemployment profile year else profile in
          ret (mkLoop next_state (career_path st ++ [next_state])
                      current_age profile)
      end.

Definition simulate_career (max_years : Z) (starting_age : Z)
    (profile : option CareerProfile) : M (list string * CareerProfile) :=
  let profile :=
    match profile with
    | None => new_profile false "medium"
    | Some p => p
    end in
  let current_state := "Entry Level" in
  st <- foldM simulate_year (range max_years)
          (mkLoop current_state [current_state] starting_age profile) ;;
  ret (career_path st, loop_profile st).

(** ** Peak position *)

(** One iteration of the loop, on the pair [(max_rank, peak_state)]. *)
Definition peak_step (acc : Z * string) (state : string) : Z * string :=
  let rank := dict_get_default state_ranks state 0%Z in
  if (rank >? fst acc)%Z then (rank, state) else acc.

Definition get_peak_position (career : list string) : string :=
  snd (fold_left peak_step career (0%Z, "Entry Level")).

(** ** Rounding *)

(** Nearest integer, ties to the even one. *)
Definition round_half_even (x : Q) : Z :=
  let f := Qfloor x in
  match Qcompare (x - inject_Z f) (1 # 2) with
  | Lt => f
  | Gt => (f + 1)%Z
  | Eq => if Z.even f then f else (f + 1)%Z
  end.

(** [round(x, ndigits)] *)
Definition py_round (x : Q) (ndigits : nat) : Q :=
  let scale := inject_Z (10 ^ Z.of_nat ndigits) in
  inject_Z (round_half_even (x * scale)) / scale.

(** ** numpy *)

(** The reductions [run_simulation] takes from numpy.  [np.std] is not a
    rational function, and what [np.percentile] does with an empty sample
    is numpy's business, so they are an interface of the engine. *)
Class Numpy : Type := {
  np_mean : list Q -> Q;
  np_std : list Q -> Q;
  np_median : list Q -> Q;
  np_percentile : list Q -> Q -> result Q
}.

(** ** Batches and the simulation entry point *)

(** The [config] dictionary: a key may be absent. *)
Record Config : Type := mkConfig {
  cfg_specialization : option string;
  cfg_risk_level : option string;
  cfg_iterations : option Z;
  cfg_max_years : option Z;
  cfg_starting_age : option Z;
  cfg_compute_ci : option bool;
  cfg_ci_iterations : option Z
}.

(** [config.get(key, dflt)] *)
Definition config_get {A} (field : option A) (dflt : A) : A :=
  match field with Some v => v | None => dflt end.

(** One entry of [careers_data]. *)
Record CareerData : Type := mkCareerData {
  cd_career : list string;
  cd_peak : string;
  cd_profile : CareerProfile;
  cd_final_state : string
}.

Record BatchResult : Type := mkBatch {
  director_prob : Q;
  retire_ages : list Z;
  unemployment_durations : list Z;
  peak_counts : dict Z;
  total : Z
}.

(** The rank table local to [run_simulation]. *)
Definition director_ranks : dict Z :=
  [ ("Entry Level", 1); ("Junior", 2); ("Mid-Level", 3); ("Senior", 4);
    ("Lead", 5); ("Manager", 6); ("Director", 7); ("VP", 8); ("C-Suite", 9) ]%Z.

(** [career.index(x)] when [x in career] *)
Fixpoint index_of (career : list string) (x : string) : option Z :=
  match career with
  | [] => None
  | s :: career' =>
      if String.eqb s x then Some 0%Z
      else match index_of career' x with
           | Some i => Some (i + 1)%Z
           | None => None
           end
  end.

(** [len(l)] *)
Definition len {A} (l : list A) : Z := Z.of_nat (length l).

(** [a / b] on integers *)
Definition true_div (a b : Z) : result Q :=
  if (b =? 0)%Z then Raise ZeroDivisionError else Ok (inject_Z a / inject_Z b).

(** The body of the loop that fills [careers_data]; [early_spec],
    [risk_level], [max_years] and [starting_age] are the variables
    [run_batch] closes over. *)
Definition simulate_entry (early_spec : bool) (risk_level : string)
    (max_years starting_age : Z) (careers_data : list CareerData) (_ : Z)
    : M (list CareerData) :=
  let profile := new_profile early_spec risk_level in
  cp <- simulate_career max_years starting_age (Some profile) ;;
  let '(career, profile) := cp in
  let peak := get_peak_position career in
  ret (careers_data ++ [mkCareerData career peak profile (last career "")]).

(** [sum(1 for r in careers_data if state_ranks.get(r['peak'], 0) >= 7)] *)
Definition director_plus_count (careers_data : list CareerData) : Z :=
  len (filter (fun r => (dict_get_default director_ranks (cd_peak r) 0 >=? 7)%Z)
              careers_data).

(** [[starting_age + r['career'].index("Retired") for r in careers_data
      if "Retired" in r['career']]] *)
Definition retirement_ages (starting_age : Z) (careers_data : list CareerData)
    : list Z :=
  flat_map (fun r => match index_of (cd_career r) "Retired" with
                     | Some i => [(starting_age + i)%Z]
                     | None => []
                     end) careers_data.

(** The loop that fills [peak_counts]. *)
Definition count_peaks (careers_data : list CareerData) : dict Z :=
  fold_left (fun (peak_counts : dict Z) r =>
               let peak := cd_peak r in
               dict_set peak_counts peak
                 (dict_get_default peak_counts peak 0 + 1)%Z)
            careers_data [].

Definition run_batch (early_spec : bool) (risk_level : string)
    (max_years starting_age : Z) (n_simulations : Z) : M BatchResult :=
  careers_data <-
    foldM (simulate_entry early_spec risk_level max_years starting_age)
          (range n_simulations) [] ;;
  match true_div (director_plus_count careers_data) (len careers_data) with
  | Raise e => raise e
  | Ok director_prob =>
      let retire_ages := retirement_ages starting_age careers_data in
      let unemployment_durations :=
        map (fun r => len (unemployment_history (cd_profile r))) careers_data in
      let peak_counts := count_peaks careers_data in
      ret (mkBatch director_prob retire_ages unemployment_durations
                   peak_counts (len careers_data))
  end.

(** [{k: round(v / total, 4) for k, v in peak_counts.items()}] *)
Definition peak_distribution_of (peak_counts : dict Z) (total : Z) : M (dict Q) :=
  foldM (fun (d : dict Q) (kv : string * Z) =>
           match true_div (snd kv) total with
           | Raise e => raise e
           | Ok q => ret (d ++ [(fst kv, py_round q 4)])
           end)
        peak_counts [].

Record DirectorMetric : Type := mkDirectorMetric {
  dp_mean : Q;
  dp_ci_lower : option Q;
  dp_ci_upper : option Q
}.

Record RetirementMetric : Type := mkRetirementMetric {
  ra_mean : option Q;
  ra_std : option Q
}.

Record UnemploymentMetric : Type := mkUnemploymentMetric {
  uy_mean : Q;
  uy_median : option Q;
  uy_std : option Q
}.

(** The [meta.config] echo. *)
Record ConfigEcho : Type := mkEcho {
  echo_specialization : string;
  echo_risk_level : string;
  echo_iterations : Z;
  echo_max_years : Z;
  echo_starting_age : Z;
  echo_compute_ci : bool
}.

Record SimulationResult : Type := mkResult {
  director_probability : DirectorMetric;
  retirement_age : RetirementMetric;
  unemployment_years : UnemploymentMetric;
  peak_role : dict Q;
  total_simulations : Z;
  meta_config : ConfigEcho
}.

Section Engine.
Context {np : Numpy}.

Definition run_simulation (config : Config) : M SimulationResult :=
  let early_spec := String.eqb (config_get (cfg_specialization config) "none") "early" in
  let risk_level := config_get (cfg_risk_level config) "medium" in
  let iterations := config_get (cfg_iterations config) 2500%Z in
  let max_years := config_get (cfg_max_years config) 45%Z in
  let starting_age := config_get (cfg_starting_age config) 22%Z in
  let compute_ci := config_get (cfg_compute_ci config) false in
  let ci_iterations := config_get (cfg_ci_iterations config) 30%Z in
  let run_batch := run_batch early_spec risk_level max_years starting_age in
  primary_results <- run_batch iterations ;;
  let mean := py_round (director_prob primary_results) 4 in
  director_metric <-
    (if compute_ci then
       bootstrap_probs <-
         foldM (fun bootstrap_probs (_ : Z) =>
                  batch <- run_batch iterations ;;
                  ret (bootstrap_probs ++ [director_prob batch]))
               (range ci_iterations) [] ;;
       match np_percentile bootstrap_probs 2.5 with
       | Raise e => raise e
       | Ok lo =>
           match np_percentile bootstrap_probs 97.5 with
           | Raise e => raise e
           | Ok hi =>
               ret (mkDirectorMetric mean (Some (py_round lo 4))
                                     (Some (py_round hi 4)))
           end
       end
     else ret (mkDirectorMetric mean None None)) ;;
  let retire_ages := map inject_Z (retire_ages primary_results) in
  let retirement_metric :=
    match retire_ages with
    | [] => mkRetirementMetric None None
    | _ => mkRetirementMetric (Some (py_round (np_mean retire_ages) 2))
                              (Some (py_round (np_std retire_ages) 2))
    end in
  let unemp_durations := map inject_Z (unemployment_durations primary_results) in
  let unemployment_metric :=
    match unemp_durations with
    | [] => mkUnemploymentMetric 0.0 None None
    | _ => mkUnemploymentMetric (py_round (np_mean unemp_durations) 2)
                                (Some (py_round (np_median unemp_durations) 2))
                                (Some (py_round (np_std unemp_durations) 2))
    end in
  let peak_counts := peak_counts primary_results in
  let total := total primary_results in
  peak_distribution <- peak_distribution_of peak_counts total ;;
  ret (mkResult director_metric retirement_metric unemployment_metric
                peak_distribution iterations
                (mkEcho (if early_spec then "early" else "none") risk_level
                        iterations max_years starting_age compute_ci)).

(** ** Comparative analysis *)

Record Deltas : Type := mkDeltas {
  specialist_vs_control : Q;
  risktaker_vs_control : Q
}.

Record ComparativeResult : Type := mkComparative {
  control : SimulationResult;
  specialist : SimulationResult;
  risktaker : SimulationResult;
  deltas : Deltas
}.

(** An entry of [interventions] once [iterations] and [compute_ci] are set. *)
Definition intervention (specialization risk_level : string)
    (iterations : Z) (compute_ci : bool) : Config :=
  mkConfig (Some specialization) (Some risk_level) (Some iterations)
           None None (Some compute_ci) None.

Definition run_comparative_analysis (iterations : Z) (compute_ci : bool)
    : M ComparativeResult :=
  r_control <- run_simulation (intervention "none" "medium" iterations compute_ci) ;;
  r_specialist <- run_simulation (intervention "early" "medium" iterations compute_ci) ;;
  r_risktaker <- run_simulation (intervention "none" "high" iterations compute_ci) ;;
  let control_prob := dp_mean (director_probability r_control) in
  ret (mkComparative r_control r_specialist r_risktaker
         (mkDeltas
            (py_round (dp_mean (director_probability r_specialist) - control_prob) 4)
            (py_round (dp_mean (director_probability r_risktaker) - control_prob) 4))).

End Engine.

(** ** Vocabulary of the properties *)

(** A call of one of the two update methods of a profile. *)
Inductive profile_update : Type :=
| UpdateBurnout (current_state : string) (years_worked : Z)
| UpdateMomentum (old_state new_state : string).

Definition apply_update (p : CareerProfile) (u : profile_update) : CareerProfile :=
  match u with
  | UpdateBurnout s y => update_burnout p s y
  | UpdateMomentum o n => update_momentum p o n
  end.

Definition scores_nonneg (p : CareerProfile) : Prop :=
  0 <= burnout_score p /\ 0 <= momentum_score p.

(** A row is a probability distribution over [STATES]: decidable check. *)
Definition row_ok (m : dict Q) : bool :=
  forallb (fun k => py_in k STATES) (keys m)
  && Qeq_bool (Qsum (values m)) 1
  && forallb (Qle_bool 0) (values m).

(** Once [Retired] is an entry of the path, every later entry is. *)
Definition absorbing (path : list string) : Prop :=
  forall i j, (i <= j)%nat -> (j < length path)%nat ->
    nth_error path i = Some "Retired" -> nth_error path j = Some "Retired".

(** The generator whose first draws are [l]. *)
Definition draws (l : list Q) : Rng := fun n => nth n l 0.

(** numpy for running the engine on concrete inputs: the mean is exact; the
    other reductions, which no property below inspects, are constant. *)
Definition np_sample : Numpy :=
  {| np_mean := fun l => Qsum l / inject_Z (len l);
     np_std := fun _ => 0;
     np_median := fun _ => 0;
     np_percentile := fun _ _ => Ok 0 |}.

(** The only thing the modifier reads of a risk tolerance. *)
Definition risk_class (rt : string) : string :=
  if String.eqb rt "high" then "high"
  else if String.eqb rt "low" then "low" else "medium".

(** Every row of the base table, modified under each kind of profile, is a
    distribution over [STATES]. *)
Definition base_rows_checked : bool :=
  forallb (fun early =>
    forallb (fun risk =>
      forallb (fun entry =>
         row_ok (apply_decision_modifiers (new_profile early risk)
                   (snd entry) (fst entry) 0))
        TRANSITIONS)
     ["high"; "low"; "medium"])
   [true; false].

(** What every iteration of the loop of [simulate_career] keeps. *)
Definition career_invariant (starting_age : Z) (n : nat) (st : career_loop) : Prop :=
  length (career_path st) = S n /\
  absorbing (career_path st) /\
  (In "Retired" (career_path st) -> current_state st = "Retired") /\
  In (current_state st) STATES /\
  incl (career_path st) STATES /\
  hd_error (career_path st) = Some "Entry Level" /\
  current_age st = (starting_age + Z.of_nat n)%Z.

(** What the loop of [run_batch] records for each trajectory. *)
Definition career_entry_ok (max_years : Z) (r : CareerData) : Prop :=
  cd_peak r = get_peak_position (cd_career r) /\
  length (cd_career r) = S (Z.to_nat max_years) /\
  absorbing (cd_career r) /\
  incl (cd_career r) STATES.

Definition batch_invariant (max_years : Z) (n : nat) (careers_data : list CareerData)
    : Prop :=
  length careers_data = n /\ Forall (career_entry_ok max_years) careers_data.

(** Sum of a list of counts. *)
Definition Zsum (l : list Z) : Z := fold_right Z.add 0%Z l.

(** A histogram: distinct keys taken from [K], positive counts adding up
    to [n]. *)
Definition histogram (K : list string) (n : Z) (d : dict Z) : Prop :=
  NoDup (keys d) /\ incl (keys d) K /\ Zsum (values d) = n /\
  Forall (fun v => (0 < v)%Z) (values d).

(** The entries of [peak_role] for a histogram and a non-zero total. *)
Definition rounded_shares (peak_counts : dict Z) (total : Z) : dict Q :=
  map (fun kv => (fst kv, py_round (inject_Z (snd kv) / inject_Z total) 4))
      peak_counts.

(** ** Vocabulary of the further properties *)

(** [state_ranks.get(state, 0)] *)
Definition rank (s : string) : Z := dict_get_default state_ranks s 0%Z.

(** The generator after [k] draws. *)
Definition shift (k : nat) (g : Rng) : Rng := fun n => g (k + n)%nat.

(** [d'] has the keys of [d], in the same order, then possibly new ones. *)
Definition extends {V W} (d : dict V) (d' : dict W) : Prop :=
  exists extra, keys d' = keys d ++ extra.

Definition momentum_bounded (p : CareerProfile) : Prop :=
  0 <= momentum_score p <= 18.

(** Number of Unemployed entries of a path. *)
Definition unemployed_years (path : list string) : Z :=
  Z.of_nat (count_occ string_dec path "Unemployed").

(** What the loop of [simulate_career] keeps of the profile [p0] and the
    generator [g0] it started from, after [n] iterations. *)
Definition tracking_invariant (p0 : CareerProfile) (g0 : Rng) (n : nat)
    (st : career_loop) (g : Rng) : Prop :=
  early_specialization (loop_profile st) = early_specialization p0 /\
  risk_tolerance (loop_profile st) = risk_tolerance p0 /\
  len (unemployment_history (loop_profile st))
  = (len (unemployment_history p0) + unemployed_years (career_path st))%Z /\
  (total_promotions p0 <= total_promotions (loop_profile st))%Z /\
  (total_demotions p0 <= total_demotions (loop_profile st))%Z /\
  (total_promotions (loop_profile st) + total_demotions (loop_profile st)
   <= total_promotions p0 + total_demotions p0 + Z.of_nat n)%Z /\
  (scores_nonneg p0 -> scores_nonneg (loop_profile st)) /\
  (exists k, (k <= 2 * n)%nat /\ forall i, g i = shift k g0 i).

(** What [run_batch] records of a trajectory run for a fresh profile with
    the decisions [early] and [risk]. *)
Definition entry_tracks (early : bool) (risk : string) (max_years : Z)
    (r : CareerData) : Prop :=
  career_entry_ok max_years r /\
  hd_error (cd_career r) = Some "Entry Level" /\
  early_specialization (cd_profile r) = early /\
  risk_tolerance (cd_profile r) = risk /\
  len (unemployment_history (cd_profile r)) = unemployed_years (cd_career r) /\
  scores_nonneg (cd_profile r) /\
  cd_final_state r = last (cd_career r) "".

Definition batch_tracks (early : bool) (risk : string) (max_years : Z)
    (n : nat) (careers_data : list CareerData) : Prop :=
  length careers_data = n /\
  Forall (entry_tracks early risk max_years) careers_data.

(** Equality test on lists of keys. *)
Definition same_keys (a b : list string) : bool :=
  if list_eq_dec string_dec a b then true else false.

(** For every row of the base table and each kind of profile, the modified
    row has the keys of the base row, in the same order. *)
Definition base_keys_checked : bool :=
  forallb (fun early =>
    forallb (fun risk =>
      forallb (fun entry =>
         same_keys
           (keys (apply_decision_modifiers (new_profile early risk)
                    (snd entry) (fst entry) 0))
           (keys (snd entry)))
        TRANSITIONS)
     ["high"; "low"; "medium"])
   [true; false].

(** Only the rows of C-Suite, Unemployed and Retired itself offer Retired. *)
Definition retired_rows_checked : bool :=
  forallb (fun entry =>
             implb (py_in "Retired" (keys (snd entry)))
                   (py_in (fst entry) ["C-Suite"; "Retired"; "Unemployed"]))
          TRANSITIONS.

(** Before the age of 55 a Retired entry follows only Retired, Unemployed or
    C-Suite. *)
Definition early_retirement_explained (starting_age : Z) (path : list string)
    : Prop :=
  forall i,
    nth_error path (S i) = Some "Retired" ->
    (starting_age + Z.of_nat (S i) < 55)%Z ->
    nth_error path i = Some "Retired" \/
    nth_error path i = Some "Unemployed" \/
    nth_error path i = Some "C-Suite".

Definition floor_invariant (starting_age : Z) (n : nat) (st : career_loop)
    (g : Rng) : Prop :=
  (forall i, 0 <= g i) /\
  length (career_path st) = S n /\
  nth_error (career_path st) n = Some (current_state st) /\
  current_age st = (starting_age + Z.of_nat n)%Z /\
  early_retirement_explained starting_age (career_path st).

(** Two rows with the same keys and equal probabilities. *)
Definition same_row (a b : dict Q) : Prop :=
  Forall2 (fun x y => fst x = fst y /\ snd x == snd y) a b.

(** Every row of the base table sums to one. *)
Definition base_rows_sum_checked : bool :=
  forallb (fun entry => Qeq_bool (Qsum (values (snd entry))) 1) TRANSITIONS.

(** ** The stand-alone script [stupid_simulator.py]

    The script has its own transition table, retirement policy and modifier;
    its [CareerProfile] is the one above. *)
Module StupidSimulator.

Definition TRANSITIONS : dict (dict Q) :=
  [ ("Entry Level", [("Entry Level", 0.45); ("Junior", 0.30); ("Mid-Level", 0.05); ("Unemployed", 0.20)]);
    ("Junior", [("Junior", 0.40); ("Mid-Level", 0.30); ("Senior", 0.05); ("Entry Level", 0.10); ("Unemployed", 0.15)]);
    ("Mid-Level", [("Mid-Level", 0.50); ("Senior", 0.20); ("Lead", 0.05); ("Junior", 0.10); ("Unemployed", 0.15)]);
    ("Senior", [("Senior", 0.55); ("Lead", 0.15); ("Manager", 0.10); ("Mid-Level", 0.10); ("Unemployed", 0.10)]);
    ("Lead", [("Lead", 0.50); ("Manager", 0.20); ("Director", 0.05); ("Senior", 0.15); ("Unemployed", 0.10)]);
    ("Manager", [("Manager", 0.55); ("Director", 0.15); ("Lead", 0.15); ("Senior", 0.05); ("Unemployed", 0.10)]);
    ("Director", [("Director", 0.60); ("VP", 0.10); ("Manager", 0.15); ("Unemployed", 0.15)]);
    ("VP", [("VP", 0.65); ("C-Suite", 0.08); ("Director", 0.15); ("Unemployed", 0.12)]);
    ("C-Suite", [("C-Suite", 0.70); ("VP", 0.10); ("Unemployed", 0.10); ("Retired", 0.10)]);
    ("Retired", [("Retired", 1.0)]);
    ("Unemployed", [("Unemployed", 0.50); ("Entry Level", 0.25); ("Junior", 0.15); ("Mid-Level", 0.08); ("Retired", 0.02)]) ].

Definition get_retirement_probability (profile : CareerProfile)
    (current_state : string) (years_worked : Z) (age : Z) : Q :=
  if String.eqb current_state "Retired" then 1.0
  else
    let base_prob :=
      if (age <? 50)%Z then 0.0
      else if (age <? 60)%Z then 0.01
      else if (age <? 65)%Z then 0.08
      else if (age <? 70)%Z then 0.25
      else 0.50 in
    let burnout_factor := py_min (burnout_score profile / 100) 0.3 in
    let momentum_factor := - py_min (momentum_score profile / 50) 0.2 in
    let base_prob :=
      if (age >? 60)%Z && py_in current_state ["Entry Level"; "Junior"; "Mid-Level"]
      then base_prob + 0.15 else base_prob in
    let base_prob :=
      if py_in current_state ["C-Suite"; "VP"; "Director"]
      then base_prob - 0.10 else base_prob in
    let base_prob :=
      if String.eqb current_state "Unemployed" && (age >? 55)%Z
      then base_prob + 0.20 else base_prob in
    py_max 0 (py_min 1.0 (base_prob + burnout_factor + momentum_factor)).

(** The row after the specialization and risk rules, before normalization. *)
Definition decision_modified (profile : CareerProfile) (transitions : dict Q)
    (current_state : string) : dict Q :=
  let modified := transitions in
  let modified :=
    if early_specialization profile then
      if py_in current_state ["Entry Level"; "Junior"] then
        fold_left
          (fun m state =>
             if py_in state ["Junior"; "Mid-Level"; "Senior"]
             then scale m state 1.3 else m)
          (keys modified) modified
      else if py_in current_state ["Senior"; "Lead"] then
        scale modified current_state 1.2
      else modified
    else
      if py_in current_state ["Manager"; "Director"; "VP"] then
        fold_left
          (fun m state => if dict_mem m state then scale m state 1.25 else m)
          ["Director"; "VP"; "C-Suite"] modified
      else modified in
  if String.eqb current_state "Unemployed" then
    if String.eqb (risk_tolerance profile) "high" then
      let modified := scale modified "Mid-Level" 1.5 in
      scale modified "Unemployed" 0.8
    else if String.eqb (risk_tolerance profile) "low" then
      let modified := scale modified "Entry Level" 1.3 in
      scale modified "Unemployed" 1.1
    else modified
  else modified.

Definition apply_decision_modifiers (profile : CareerProfile)
    (transitions : dict Q) (current_state : string) (years_worked : Z)
    : dict Q :=
  let modified := decision_modified profile transitions current_state in
  let total := Qsum (values modified) in
  if Qltb 0 total then normalize modified total else modified.

(** Every row of the script's table, modified under each kind of profile,
    is a distribution over [STATES]. *)
Definition base_rows_checked : bool :=
  forallb (fun early =>
    forallb (fun risk =>
      forallb (fun entry =>
         row_ok (apply_decision_modifiers (new_profile early risk)
                   (snd entry) (fst entry) 0))
        TRANSITIONS)
     ["high"; "low"; "medium"])
   [true; false].

End StupidSimulator.

(** Two rows with the same keys and probabilities within 1e-9 of each
    other. *)
Definition near_row (a b : dict Q) : Prop :=
  Forall2 (fun x y => fst x = fst y /\ Qabs (snd x - snd y) <= 1e-9) a b.

(** * Properties *)

(** ** Comparisons, [max] and [min] *)

Lemma Qltb_true (a b : Q) : Qltb a b = true <-> a < b.
Proof.
  unfold Qltb. rewrite negb_true_iff. split; intro H.
  - apply Qnot_le_lt. intro L. apply Qle_bool_iff in L. congruence.
  - destruct (Qle_bool b a) eqn:E; auto. apply Qle_bool_iff in E. lra.
Qed.

Lemma Qltb_false (a b : Q) : Qltb a b = false <-> b <= a.
Proof. unfold Qltb. rewrite negb_false_iff. apply Qle_bool_iff. Qed.

Lemma py_max_lower (a b : Q) : a <= py_max a b.
Proof.
  unfold py_max. destruct (Qltb a b) eqn:E.
  - apply Qltb_true in E. lra.
  - lra.
Qed.

Lemma clamp_unit (x : Q) : 0 <= py_max 0 (py_min 1.0 x) <= 1.
Proof.
  unfold py_max, py_min.
  destruct (Qltb x 1.0) eqn:E1.
  - apply Qltb_true in E1. destruct (Qltb 0 x) eqn:E2.
    + apply Qltb_true in E2. lra.
    + lra.
  - destruct (Qltb 0 1.0) eqn:E2; lra.
Qed.

(** ** Retirement policy *)

Lemma retirement_probability_cases
    (profile : CareerProfile) (s : string) (years_worked age : Z) :
  0 <= get_retirement_probability profile s years_worked age <= 1 /\
  (s = "Retired" ->
   get_retirement_probability profile s years_worked age = 1.0) /\
  (s <> "Retired" -> (age < 55)%Z ->
   get_retirement_probability profile s years_worked age = 0.0).
Proof.
  unfold get_retirement_probability.
  destruct (String.eqb_spec s "Retired") as [E | E].
  - repeat split; try lra. intros N. contradiction.
  - destruct (Z.ltb_spec age 55) as [A | A].
    + repeat split; try lra. intros R. contradiction.
    + split; [apply clamp_unit | split; [intros R; contradiction | lia]].
Qed.

(** C8: [get_retirement_probability] always returns a value in [0,1]; it is
    exactly 1.0 when the state is Retired, and exactly 0.0 when the state is
    not Retired and the age is below 55, whatever the profile. *)
Theorem retirement_probability_contract
    (profile : CareerProfile) (s : string) (years_worked age : Z) :
  0 <= get_retirement_probability profile s years_worked age <= 1 /\
  (s = "Retired" ->
   get_retirement_probability profile s years_worked age = 1.0) /\
  (s <> "Retired" -> (age < 55)%Z ->
   get_retirement_probability profile s years_worked age = 0.0).
Proof. apply retirement_probability_cases. Qed.

Lemma retirement_probability_contract_witness :
  get_retirement_probability (new_profile false "medium") "Retired" 40 62 = 1.0 /\
  get_retirement_probability (new_profile true "high") "Junior" 8 30 = 0.0.
Proof.
  split.
  - apply (proj1 (proj2 (retirement_probability_contract
                           (new_profile false "medium") "Retired" 40 62))).
    reflexivity.
  - apply (proj2 (proj2 (retirement_probability_contract
                           (new_profile true "high") "Junior" 8 30))).
    + discriminate.
    + lia.
Defined.

(** ** Profile scores *)

Lemma update_burnout_nonneg (p : CareerProfile) (s : string) (y : Z) :
  0 <= burnout_score (update_burnout p s y).
Proof. unfold update_burnout. simpl. apply py_max_lower. Qed.

Lemma update_momentum_nonneg (p : CareerProfile) (o n : string) :
  0 <= momentum_score (update_momentum p o n).
Proof.
  unfold update_momentum.
  destruct (_ >? _)%Z; [| destruct (_ <? _)%Z]; simpl; apply py_max_lower.
Qed.

Lemma update_burnout_momentum (p : CareerProfile) (s : string) (y : Z) :
  momentum_score (update_burnout p s y) = momentum_score p.
Proof. reflexivity. Qed.

Lemma update_momentum_burnout (p : CareerProfile) (o n : string) :
  burnout_score (update_momentum p o n) = burnout_score p.
Proof.
  unfold update_momentum.
  destruct (_ >? _)%Z; [| destruct (_ <? _)%Z]; reflexivity.
Qed.

Lemma apply_update_nonneg (p : CareerProfile) (u : profile_update) :
  scores_nonneg p -> scores_nonneg (apply_update p u).
Proof.
  intros [B Mo]. destruct u as [s y | o n]; split; unfold apply_update.
  - apply update_burnout_nonneg.
  - rewrite update_burnout_momentum. exact Mo.
  - rewrite update_momentum_burnout. exact B.
  - apply update_momentum_nonneg.
Qed.

(** C9: whatever sequence of [update_burnout] and [update_momentum] calls is
    applied to a profile whose scores are not negative, [burnout_score] and
    [momentum_score] are not negative afterwards. *)
Theorem scores_never_negative (p : CareerProfile) (us : list profile_update) :
  scores_nonneg p -> scores_nonneg (fold_left apply_update us p).
Proof.
  revert p. induction us as [| u us IH]; intros p H; simpl.
  - exact H.
  - apply IH. apply apply_update_nonneg. exact H.
Qed.

Lemma scores_never_negative_witness :
  scores_nonneg
    (fold_left apply_update
       [UpdateBurnout "Unemployed" 0; UpdateMomentum "Senior" "Junior";
        UpdateBurnout "C-Suite" 1; UpdateMomentum "Junior" "Lead"]
       (new_profile false "medium")).
Proof.
  apply scores_never_negative.
  split; simpl; lra.
Defined.

(** ** Dictionaries and sums *)

Lemma dict_get_In {V} (d : dict V) (k : string) (v : V) :
  dict_get d k = Some v -> In (k, v) d.
Proof.
  induction d as [| [k' v'] d IH]; simpl; [discriminate |].
  destruct (String.eqb_spec k' k) as [-> | N]; intros H.
  - inversion H; subst. now left.
  - right. auto.
Qed.

Lemma fold_Qplus_acc (l : list Q) (a : Q) :
  fold_left Qplus l a == a + Qsum l.
Proof.
  unfold Qsum. revert a. induction l as [| x l IH]; intros a; simpl.
  - lra.
  - rewrite (IH (a + x)), (IH (0 + x)). lra.
Qed.

Lemma Qsum_cons (x : Q) (l : list Q) : Qsum (x :: l) == x + Qsum l.
Proof. unfold Qsum at 1. simpl. rewrite fold_Qplus_acc. lra. Qed.

Lemma Qsum_app (l1 l2 : list Q) : Qsum (l1 ++ l2) == Qsum l1 + Qsum l2.
Proof.
  induction l1 as [| x l1 IH]; simpl.
  - unfold Qsum at 2. simpl. lra.
  - rewrite !Qsum_cons, IH. lra.
Qed.

(** ** Transition modifier *)

Lemma normalize_sum (m : dict Q) (t : Q) :
  ~ t == 0 -> Qsum (values (normalize m t)) == Qsum (values m) / t.
Proof.
  intros T. induction m as [| [k v] m IH]; simpl.
  - unfold Qsum. simpl. field. exact T.
  - rewrite !Qsum_cons, IH. field. exact T.
Qed.

(** Over the rationals, when the total is positive the returned row sums
    to one, whatever the row handed in. *)
Lemma normalized_total (p : CareerProfile) (row : dict Q) (s : string) (yw : Z) :
  0 < Qsum (values (decision_modified p row s)) ->
  Qsum (values (apply_decision_modifiers p row s yw)) == 1.
Proof.
  intros T. unfold apply_decision_modifiers.
  destruct (Qltb 0 _) eqn:E.
  - rewrite normalize_sum by lra. field. lra.
  - apply Qltb_false in E. lra.
Qed.

(** C3, as the code has it: when the total of the modified row is not
    positive, [apply_decision_modifiers] raises nothing; the guard
    [if total > 0] skips the division and the modified row is returned as it
    stands, unnormalized. *)
Theorem degenerate_row_returned_unnormalized
    (p : CareerProfile) (row : dict Q) (s : string) (yw : Z) :
  Qsum (values (decision_modified p row s)) <= 0 ->
  apply_decision_modifiers p row s yw = decision_modified p row s.
Proof.
  intros T. unfold apply_decision_modifiers.
  destruct (Qltb 0 _) eqn:E; [| reflexivity].
  apply Qltb_true in E. lra.
Qed.

Lemma degenerate_row_returned_unnormalized_witness :
  apply_decision_modifiers (new_profile true "low")
    [("Junior", 0); ("Unemployed", 0)] "Junior" 3
  = decision_modified (new_profile true "low")
      [("Junior", 0); ("Unemployed", 0)] "Junior".
Proof.
  apply degenerate_row_returned_unnormalized.
  vm_compute. discriminate.
Defined.

(** C3 as stated fails: for the default profile in state Entry Level and a
    row whose only weight is 0, the total is 0, and the call returns that
    row, whose sum is not 1, instead of failing. *)
Lemma degenerate_row_not_rejected :
  let p := new_profile false "medium" in
  let row := [("Entry Level", 0)] in
  Qsum (values (decision_modified p row "Entry Level")) <= 0 /\
  apply_decision_modifiers p row "Entry Level" 0 = row /\
  ~ Qsum (values (apply_decision_modifiers p row "Entry Level" 0)) == 1.
Proof.
  cbv zeta. split; [| split].
  - vm_compute. discriminate.
  - reflexivity.
  - vm_compute. discriminate.
Qed.

Lemma modifiers_risk_class (p : CareerProfile) (row : dict Q) (s : string) :
  decision_modified p row s =
  decision_modified
    (new_profile (early_specialization p) (risk_class (risk_tolerance p))) row s.
Proof.
  unfold decision_modified, risk_class. simpl.
  destruct (String.eqb (risk_tolerance p) "high"); [reflexivity |].
  destruct (String.eqb (risk_tolerance p) "low"); reflexivity.
Qed.

(** A risk tolerance that is neither "high" nor "low" is read as "medium". *)
Lemma unrecognized_risk_is_medium (p : CareerProfile) (row : dict Q) (s : string) :
  risk_tolerance p <> "high" -> risk_tolerance p <> "low" ->
  decision_modified p row s
  = decision_modified (new_profile (early_specialization p) "medium") row s.
Proof.
  intros H L. rewrite modifiers_risk_class. unfold risk_class.
  apply String.eqb_neq in H, L. rewrite H, L. reflexivity.
Qed.

Lemma base_rows_checked_true : base_rows_checked = true.
Proof. vm_compute. reflexivity. Qed.

Lemma base_rows_ok (p : CareerProfile) (s : string) (row : dict Q) (yw : Z) :
  dict_get TRANSITIONS s = Some row ->
  row_ok (apply_decision_modifiers p row s yw) = true.
Proof.
  intros H. apply dict_get_In in H.
  unfold apply_decision_modifiers. rewrite modifiers_risk_class.
  pose proof base_rows_checked_true as C. unfold base_rows_checked in C.
  rewrite forallb_forall in C.
  assert (E : In (early_specialization p) [true; false])
    by (destruct (early_specialization p); simpl; auto).
  specialize (C _ E). rewrite forallb_forall in C.
  assert (R : In (risk_class (risk_tolerance p)) ["high"; "low"; "medium"]).
  { unfold risk_class. destruct (String.eqb _ "high"); [simpl; auto |].
    destruct (String.eqb _ "low"); simpl; auto. }
  specialize (C _ R). rewrite forallb_forall in C.
  specialize (C _ H). exact C.
Qed.

Lemma row_ok_spec (m : dict Q) :
  row_ok m = true ->
  incl (keys m) STATES /\ Qsum (values m) == 1 /\ Forall (Qle 0) (values m).
Proof.
  unfold row_ok. rewrite !andb_true_iff. intros [[K S] V]. repeat split.
  - intros k Hk. rewrite forallb_forall in K. specialize (K k Hk).
    unfold py_in in K. apply existsb_exists in K. destruct K as [x [Hx E]].
    apply String.eqb_eq in E. subst. exact Hx.
  - apply Qeq_bool_iff. exact S.
  - apply Forall_forall. intros v Hv. rewrite forallb_forall in V.
    apply Qle_bool_iff. auto.
Qed.

(** C6: for every profile and every state with a row in the base table, the
    row returned by [apply_decision_modifiers] sums to 1.0 within 1e-9 (over
    the rationals: exactly) and holds no negative probability. *)
Theorem modified_row_is_distribution
    (p : CareerProfile) (s : string) (row : dict Q) (yw : Z) :
  dict_get TRANSITIONS s = Some row ->
  Qabs (Qsum (values (apply_decision_modifiers p row s yw)) - 1) <= 1e-9 /\
  Forall (fun v => 0 <= v) (values (apply_decision_modifiers p row s yw)).
Proof.
  intros H. apply (base_rows_ok p s row yw) in H.
  apply row_ok_spec in H. destruct H as [_ [S V]]. split.
  - assert (Z0 : Qsum (values (apply_decision_modifiers p row s yw)) - 1 == 0)
      by lra.
    rewrite Z0. vm_compute. discriminate.
  - exact V.
Qed.

Lemma modified_row_is_distribution_witness :
  let m := apply_decision_modifiers (new_profile false "high")
             [("Director", 0.60); ("VP", 0.10); ("Manager", 0.15); ("Unemployed", 0.15)]
             "Director" 12 in
  Qabs (Qsum (values m) - 1) <= 1e-9 /\ Forall (fun v => 0 <= v) (values m).
Proof.
  apply (modified_row_is_distribution (new_profile false "high") "Director").
  reflexivity.
Defined.

(** ** Loops in the monad *)

Lemma bind_ok {A B} (m : M A) (f : A -> M B) (g : Rng) (r : B * Rng) :
  bind m f g = Ok r ->
  exists a g', m g = Ok (a, g') /\ f a g' = Ok r.
Proof.
  unfold bind. destruct (m g) as [[a g'] | e]; [| discriminate].
  intros H. exists a, g'. auto.
Qed.

(** A loop whose body always returns and keeps an invariant, indexed by the
    number of iterations done, returns with the invariant. *)
Lemma foldM_total {A B} (f : A -> B -> M A) (I : nat -> A -> Prop) :
  (forall n a b g, I n a -> exists a' g', f a b g = Ok (a', g') /\ I (S n) a') ->
  forall l n a g, I n a ->
    exists a' g', foldM f l a g = Ok (a', g') /\ I (n + length l)%nat a'.
Proof.
  intros Step l. induction l as [| b l IH]; intros n a g Ia; simpl.
  - exists a, g. rewrite Nat.add_0_r. auto.
  - destruct (Step n a b g Ia) as [a1 [g1 [E I1]]].
    destruct (IH (S n) a1 g1 I1) as [a2 [g2 [E2 I2]]].
    exists a2, g2. unfold bind. rewrite E.
    rewrite <- Nat.add_succ_comm. auto.
Qed.

(** The same for a body that may raise: what a returning loop returns. *)
Lemma foldM_partial {A B} (f : A -> B -> M A) (I : nat -> A -> Prop) :
  (forall n a b g a' g', I n a -> f a b g = Ok (a', g') -> I (S n) a') ->
  forall l n a g a' g', I n a -> foldM f l a g = Ok (a', g') ->
    I (n + length l)%nat a'.
Proof.
  intros Step l. induction l as [| b l IH]; intros n a g a' g' Ia E; simpl in *.
  - unfold ret in E. inversion E; subst. rewrite Nat.add_0_r. exact Ia.
  - apply bind_ok in E. destruct E as [a1 [g1 [E1 E2]]].
    rewrite <- Nat.add_succ_comm. eapply IH; [| exact E2].
    eapply Step; eauto.
Qed.

Lemma range_length (n : Z) : length (range n) = Z.to_nat n.
Proof. unfold range. rewrite length_map, length_seq. reflexivity. Qed.

(** ** Weighted choice *)

Lemma accumulate_from_length (ws : list Q) (acc : Q) :
  length (accumulate_from acc ws) = length ws.
Proof.
  revert acc. induction ws as [| w ws IH]; intros acc; simpl; auto.
Qed.

Lemma accumulate_length (ws : list Q) : length (accumulate ws) = length ws.
Proof. destruct ws; simpl; auto using accumulate_from_length. Qed.

Lemma accumulate_from_last (ws : list Q) (acc d : Q) :
  ws <> [] -> last (accumulate_from acc ws) d == acc + Qsum ws.
Proof.
  revert acc. induction ws as [| w ws IH]; intros acc N; [contradiction |].
  rewrite Qsum_cons. destruct ws as [| w' ws'].
  - unfold Qsum. simpl. lra.
  - change (last (accumulate_from acc (w :: w' :: ws')) d)
      with (last (accumulate_from (acc + w) (w' :: ws')) d).
    rewrite IH by discriminate. lra.
Qed.

Lemma accumulate_last (ws : list Q) : last (accumulate ws) 0 == Qsum ws.
Proof.
  destruct ws as [| w [| w' ws']].
  - reflexivity.
  - unfold Qsum. simpl. lra.
  - change (last (accumulate (w :: w' :: ws')) 0)
      with (last (accumulate_from w (w' :: ws')) 0).
    rewrite accumulate_from_last by discriminate.
    rewrite (Qsum_cons w). lra.
Qed.

Lemma bisect_le (a : list Q) (x : Q) (hi : nat) : (bisect a x hi <= hi)%nat.
Proof.
  revert a. induction hi as [| hi IH]; intros [| c a]; simpl; try lia.
  destruct (Qltb x c); [lia |]. specialize (IH a). lia.
Qed.

(** With as many weights as candidates and a positive total, the choice
    returns one of the candidates and consumes one draw. *)
Lemma random_choices_ok (population : list string) (weights : list Q) (g : Rng) :
  length population = length weights ->
  0 < Qsum weights ->
  exists s, random_choices population weights g = Ok (s, fun n => g (S n))
            /\ In s population.
Proof.
  intros L T. unfold random_choices.
  rewrite accumulate_length, <- L, Nat.eqb_refl. simpl negb. cbv iota.
  pose proof (accumulate_last weights) as AL.
  destruct (rev (accumulate weights)) as [| total r] eqn:R.
  - apply (f_equal (@rev Q)) in R. rewrite rev_involutive in R. simpl in R.
    rewrite R in AL. simpl in AL. lra.
  - apply (f_equal (@rev Q)) in R. rewrite rev_involutive in R. simpl in R.
    rewrite R, last_last in AL.
    destruct (Qle_bool total 0) eqn:E.
    + apply Qle_bool_iff in E. lra.
    + unfold bind, random_random, ret. eexists. split; [reflexivity |].
      apply nth_In.
      assert (P : (0 < length population)%nat).
      { destruct population; simpl; [| lia].
        destruct weights; [| discriminate]. unfold Qsum in T. simpl in T. lra. }
      pose proof (bisect_le (accumulate weights) (g 0%nat * total)
                            (length population - 1)). lia.
Qed.

(** ** One simulated year *)

Lemma states_have_rows (s : string) :
  In s STATES -> exists row, dict_get TRANSITIONS s = Some row.
Proof.
  intros H. unfold STATES in H. simpl in H.
  repeat (destruct H as [H | H]; [subst s; eexists; reflexivity |]).
  contradiction.
Qed.

Lemma keys_values_length {V} (m : dict V) : length (keys m) = length (values m).
Proof. unfold keys, values. now rewrite !length_map. Qed.

(** In a state of [STATES] the body of the loop returns: it appends the new
    current state, which is again in [STATES], never leaves Retired, and
    makes the individual one year older. *)
Lemma simulate_year_ok (st : career_loop) (year : Z) (g : Rng) :
  In (current_state st) STATES ->
  exists st' g',
    simulate_year st year g = Ok (st', g') /\
    career_path st' = career_path st ++ [current_state st'] /\
    (current_state st = "Retired" -> current_state st' = "Retired") /\
    In (current_state st') STATES /\
    current_age st' = (current_age st + 1)%Z.
Proof.
  intros HS. unfold simulate_year.
  destruct (String.eqb_spec (current_state st) "Retired") as [R | R].
  - eexists. eexists. split; [reflexivity |]. simpl.
    split; [reflexivity |]. split; [intros _; exact R |].
    split; [exact HS | reflexivity].
  - unfold bind at 1. unfold random_random at 1.
    destruct (Qltb _ _).
    + eexists. eexists. split; [reflexivity |]. simpl.
      split; [reflexivity |]. split; [reflexivity |].
      split; [unfold STATES; simpl; tauto | reflexivity].
    + destruct (states_have_rows _ HS) as [row Hrow]. rewrite Hrow.
      set (p := update_burnout (loop_profile st) (current_state st) year).
      pose proof (base_rows_ok p _ _ year Hrow) as OK.
      apply row_ok_spec in OK. destruct OK as [K [T _]].
      destruct (random_choices_ok
                  (keys (apply_decision_modifiers p row (current_state st) year))
                  (values (apply_decision_modifiers p row (current_state st) year))
                  (fun n => g (S n)))
        as [next [E Hin]].
      { apply keys_values_length. }
      { lra. }
      unfold bind. rewrite E. eexists. eexists. split; [reflexivity |]. simpl.
      split; [reflexivity |]. split; [intros C; contradiction |].
      split; [apply K; exact Hin | reflexivity].
Qed.

(** ** Trajectories *)

Lemma absorbing_snoc (path : list string) (s : string) :
  absorbing path -> (In "Retired" path -> s = "Retired") ->
  absorbing (path ++ [s]).
Proof.
  intros A B i j Hij Hj Hi. rewrite length_app in Hj. simpl in Hj.
  assert (Hs : (i < length path)%nat \/ i = length path) by lia.
  assert (R : s = "Retired").
  { destruct Hs as [Hs | Hs].
    - rewrite nth_error_app1 in Hi by exact Hs.
      apply B. eapply nth_error_In. exact Hi.
    - subst i. rewrite nth_error_app2, Nat.sub_diag in Hi by lia.
      simpl in Hi. congruence. }
  assert (Hjs : (j < length path)%nat \/ j = length path) by lia.
  destruct Hjs as [Hjs | Hjs].
  - rewrite nth_error_app1 by exact Hjs. apply (A i j); auto.
    rewrite nth_error_app1 in Hi by lia. exact Hi.
  - subst j. rewrite nth_error_app2, Nat.sub_diag by lia. simpl. congruence.
Qed.

Lemma career_invariant_step (starting_age : Z) (n : nat) (st : career_loop)
    (year : Z) (g : Rng) :
  career_invariant starting_age n st ->
  exists st' g', simulate_year st year g = Ok (st', g') /\
                 career_invariant starting_age (S n) st'.
Proof.
  intros (L & A & B & HS & I & H & Age).
  destruct (simulate_year_ok st year g HS) as (st' & g' & E & P & R & HS' & Age').
  exists st', g'. split; [exact E |].
  assert (B' : In "Retired" (career_path st) -> current_state st' = "Retired")
    by auto.
  unfold career_invariant. rewrite P. repeat split.
  - rewrite length_app. simpl. lia.
  - apply absorbing_snoc; assumption.
  - intros Hin. apply in_app_or in Hin. destruct Hin as [Hin | [Hin | []]]; auto.
  - exact HS'.
  - apply incl_app; [exact I |]. intros x [<- | []]. exact HS'.
  - destruct (career_path st); [discriminate | exact H].
  - rewrite Age', Age. lia.
Qed.

(** [simulate_career] always returns; its path has one entry per simulated
    year after the initial Entry Level, stays within [STATES] and never
    leaves Retired. *)
Lemma simulate_career_ok (max_years starting_age : Z)
    (profile : option CareerProfile) (g : Rng) :
  exists path p g',
    simulate_career max_years starting_age profile g = Ok ((path, p), g') /\
    length path = S (Z.to_nat max_years) /\
    absorbing path /\
    incl path STATES /\
    hd_error path = Some "Entry Level".
Proof.
  unfold simulate_career.
  set (p0 := match profile with None => _ | Some p => p end).
  destruct (foldM_total simulate_year (career_invariant starting_age)
              (fun n a b g => career_invariant_step starting_age n a b g)
              (range max_years) 0%nat
              (mkLoop "Entry Level" ["Entry Level"] starting_age p0) g)
    as (st & g' & E & Inv).
  { assert (EL : In "Entry Level" STATES) by (unfold STATES; simpl; tauto).
    unfold career_invariant. simpl.
    split; [reflexivity |]. split; [| split; [| split; [| split; [| split]]]].
    - intros i j Hij Hj Hi. destruct i as [| [| i]]; discriminate.
    - intros [C | []]. discriminate.
    - exact EL.
    - intros x [<- | []]. exact EL.
    - reflexivity.
    - lia. }
  exists (career_path st), (loop_profile st), g'.
  unfold bind. rewrite E. split; [reflexivity |].
  destruct Inv as (L & A & _ & _ & I & H & _).
  rewrite range_length in L. simpl in L. auto.
Qed.

(** C7: in every trajectory returned by [simulate_career], and one is
    returned for every horizon, starting age, profile and sequence of random
    draws, each entry that follows a Retired entry is Retired. *)
Theorem retired_is_absorbing (max_years starting_age : Z)
    (profile : option CareerProfile) (g : Rng) :
  exists path p g',
    simulate_career max_years starting_age profile g = Ok ((path, p), g') /\
    absorbing path.
Proof.
  destruct (simulate_career_ok max_years starting_age profile g)
    as (path & p & g' & E & _ & A & _).
  exists path, p, g'. auto.
Qed.

(** ** Peak position *)

Lemma peak_fold (career : list string) (m : Z) (pk : string) :
  (0 <= m)%Z ->
  snd (fold_left peak_step career (m, pk)) = pk
  \/ (0 < dict_get_default state_ranks
             (snd (fold_left peak_step career (m, pk))) 0)%Z.
Proof.
  revert m pk. induction career as [| s career IH]; intros m pk Hm.
  - now left.
  - change (fold_left peak_step (s :: career) (m, pk))
      with (fold_left peak_step career (peak_step (m, pk) s)).
    unfold peak_step at 2 4. cbv zeta. change (fst (m, pk)) with m.
    destruct (Z.gtb_spec (dict_get_default state_ranks s 0%Z) m) as [G | G].
    + destruct (IH (dict_get_default state_ranks s 0%Z) s) as [E | P];
        [lia | | right; exact P].
      right. rewrite E. lia.
    + apply IH. exact Hm.
Qed.

Lemma peak_fold_flat (career : list string) (m : Z) (pk : string) :
  (0 <= m)%Z ->
  (forall s, In s career -> (dict_get_default state_ranks s 0 <= 0)%Z) ->
  fold_left peak_step career (m, pk) = (m, pk).
Proof.
  intros Hm. induction career as [| s career IH]; intros H.
  - reflexivity.
  - change (fold_left peak_step (s :: career) (m, pk))
      with (fold_left peak_step career (peak_step (m, pk) s)).
    unfold peak_step at 2. cbv zeta. change (fst (m, pk)) with m.
    destruct (Z.gtb_spec (dict_get_default state_ranks s 0%Z) m) as [G | G].
    + specialize (H s (or_introl eq_refl)). lia.
    + apply IH. intros x Hx. apply H. now right.
Qed.

Lemma peak_cases (career : list string) :
  get_peak_position career = "Entry Level"
  \/ (0 < dict_get_default state_ranks (get_peak_position career) 0)%Z.
Proof. unfold get_peak_position. apply peak_fold. lia. Qed.

Lemma peak_not_rank_zero (career : list string) :
  get_peak_position career <> "Unemployed" /\
  get_peak_position career <> "Retired".
Proof.
  destruct (peak_cases career) as [E | P]; split; intros C; rewrite C in *;
    try discriminate; vm_compute in P; discriminate.
Qed.

Lemma positive_rank_states (s : string) :
  (0 < dict_get_default state_ranks s 0)%Z -> In s (keys director_ranks).
Proof.
  unfold dict_get_default, state_ranks, dict_get.
  repeat match goal with
         | |- context [String.eqb ?a s] =>
             destruct (String.eqb_spec a s) as [<- | ?]
         end;
    intros H; try lia; simpl; tauto.
Qed.

Lemma peak_in_ranked (career : list string) :
  In (get_peak_position career) (keys director_ranks).
Proof.
  destruct (peak_cases career) as [E | P].
  - rewrite E. simpl. tauto.
  - apply positive_rank_states. exact P.
Qed.

(** ** Histograms *)

Lemma dict_mem_keys {V} (d : dict V) (k : string) :
  dict_mem d k = true <-> In k (keys d).
Proof.
  unfold dict_mem. induction d as [| [k' v'] d IH]; simpl.
  - split; [discriminate | contradiction].
  - destruct (String.eqb_spec k' k) as [E | N].
    + split; auto.
    + rewrite IH. split; [auto | intros [C | C]; [contradiction | exact C]].
Qed.

Lemma dict_set_keys {V} (d : dict V) (k : string) (v : V) :
  keys (dict_set d k v) = if dict_mem d k then keys d else keys d ++ [k].
Proof.
  unfold dict_mem. induction d as [| [k' v'] d IH]; simpl.
  - reflexivity.
  - destruct (String.eqb_spec k' k) as [E | N]; simpl.
    + reflexivity.
    + rewrite IH. destruct (dict_get d k); reflexivity.
Qed.

Lemma dict_set_Zsum (d : dict Z) (k : string) (v : Z) :
  Zsum (values (dict_set d k v))
  = (Zsum (values d) - dict_get_default d k 0 + v)%Z.
Proof.
  unfold dict_get_default. induction d as [| [k' v'] d IH]; simpl.
  - lia.
  - destruct (String.eqb_spec k' k) as [E | N]; simpl.
    + lia.
    + rewrite IH. lia.
Qed.

Lemma dict_set_positive (d : dict Z) (k : string) (v : Z) :
  Forall (fun x => (0 < x)%Z) (values d) -> (0 < v)%Z ->
  Forall (fun x => (0 < x)%Z) (values (dict_set d k v)).
Proof.
  intros H Hv. induction d as [| [k' v'] d IH]; simpl.
  - constructor; [exact Hv | constructor].
  - simpl in H. inversion H; subst.
    destruct (String.eqb_spec k' k) as [E | N]; simpl; constructor; auto.
Qed.

Lemma dict_get_default_nonneg (d : dict Z) (k : string) :
  Forall (fun x => (0 < x)%Z) (values d) -> (0 <= dict_get_default d k 0)%Z.
Proof.
  unfold dict_get_default. intros H. induction d as [| [k' v'] d IH]; simpl.
  - lia.
  - simpl in H. inversion H; subst.
    destruct (String.eqb_spec k' k); [lia | auto].
Qed.

(** Counting one more key keeps a histogram and adds one to its total. *)
Lemma histogram_step (K : list string) (n : Z) (d : dict Z) (k : string) :
  histogram K n d -> In k K ->
  histogram K (n + 1) (dict_set d k (dict_get_default d k 0 + 1)%Z).
Proof.
  intros (ND & I & S & P) Hk. unfold histogram.
  rewrite dict_set_keys, dict_set_Zsum.
  pose proof (dict_get_default_nonneg d k P) as G.
  split; [| split; [| split]].
  - destruct (dict_mem d k) eqn:E; [exact ND |].
    apply NoDup_app; [exact ND | constructor; [intros [] | constructor] |].
    intros x Hx [<- | []].
    apply dict_mem_keys in Hx. congruence.
  - destruct (dict_mem d k); [exact I |].
    apply incl_app; [exact I |]. intros x [<- | []]. exact Hk.
  - lia.
  - apply dict_set_positive; [exact P | lia].
Qed.

Lemma count_peaks_fold (K : list string) (l : list CareerData) (n : Z) (d : dict Z) :
  histogram K n d -> (forall r, In r l -> In (cd_peak r) K) ->
  histogram K (n + len l)
    (fold_left (fun (peak_counts : dict Z) r =>
                  let peak := cd_peak r in
                  dict_set peak_counts peak
                    (dict_get_default peak_counts peak 0 + 1)%Z) l d).
Proof.
  revert n d. induction l as [| r l IH]; intros n d H HK.
  - simpl. unfold len. simpl. rewrite Z.add_0_r. exact H.
  - simpl fold_left.
    replace (n + len (r :: l))%Z with ((n + 1) + len l)%Z
      by (unfold len; simpl length; lia).
    apply IH.
    + apply histogram_step; [exact H | apply HK; now left].
    + intros x Hx. apply HK. now right.
Qed.

(** The peak histogram of a batch: its keys are distinct ranked states and
    its counts are positive and add up to the size of the batch. *)
Lemma count_peaks_histogram (max_years : Z) (careers_data : list CareerData) :
  Forall (career_entry_ok max_years) careers_data ->
  histogram (keys director_ranks) (len careers_data) (count_peaks careers_data).
Proof.
  intros H. unfold count_peaks.
  change (len careers_data) with (0 + len careers_data)%Z.
  apply count_peaks_fold.
  - unfold histogram. simpl. repeat split; auto using NoDup_nil.
    intros x [].
  - intros r Hr. rewrite Forall_forall in H. destruct (H r Hr) as [E _].
    rewrite E. apply peak_in_ranked.
Qed.

Lemma histogram_size (K : list string) (n : Z) (d : dict Z) :
  histogram K n d -> (length d <= length K)%nat.
Proof.
  intros (ND & I & _). unfold keys in *.
  rewrite <- (length_map fst d). apply NoDup_incl_length; assumption.
Qed.

Lemma Zsum_bound (l : list Z) (v : Z) :
  Forall (fun x => (0 < x)%Z) l -> In v l -> (0 < v <= Zsum l)%Z.
Proof.
  intros P. induction P as [| x l Hx P IH]; intros Hv; [contradiction |].
  simpl. assert (0 <= Zsum l)%Z.
  { clear -P. induction P; simpl; lia. }
  destruct Hv as [-> | Hv]; [lia |]. specialize (IH Hv). lia.
Qed.

(** ** Rounding *)

Lemma round_half_even_near (x : Q) :
  x - (1 # 2) <= inject_Z (round_half_even x) <= x + (1 # 2).
Proof.
  unfold round_half_even.
  pose proof (Qfloor_le x) as L. pose proof (Qlt_floor x) as U.
  rewrite inject_Z_plus in U. change (inject_Z 1) with 1 in U.
  assert (P : inject_Z (Qfloor x + 1) == inject_Z (Qfloor x) + 1)
    by (rewrite inject_Z_plus; reflexivity).
  destruct (Qcompare_spec (x - inject_Z (Qfloor x)) (1 # 2)) as [E | E | E].
  - destruct (Z.even (Qfloor x)); [| rewrite P]; lra.
  - lra.
  - rewrite P. lra.
Qed.

(** Rounding to four places moves a value by at most half a unit of the
    fourth place. *)
Lemma py_round_near (x : Q) :
  x - 0.00005 <= py_round x 4 <= x + 0.00005.
Proof.
  unfold py_round.
  change (inject_Z (10 ^ Z.of_nat 4)) with (10000 # 1).
  pose proof (round_half_even_near (x * (10000 # 1))) as H.
  set (r := inject_Z (round_half_even (x * (10000 # 1)))) in *.
  assert (E : r / (10000 # 1) == r * (1 # 10000)) by (field; discriminate).
  rewrite E. lra.
Qed.

(** A share in [0,1] is still in [0,1] once rounded. *)
Lemma py_round_unit (x : Q) : 0 <= x <= 1 -> 0 <= py_round x 4 <= 1.
Proof.
  intros [L U]. unfold py_round.
  change (inject_Z (10 ^ Z.of_nat 4)) with (10000 # 1).
  pose proof (round_half_even_near (x * (10000 # 1))) as H.
  set (z := round_half_even (x * (10000 # 1))) in *.
  assert (Lz : (0 <= z)%Z).
  { assert (C : inject_Z (-1) < inject_Z z) by (change (inject_Z (-1)) with (-1 # 1); lra).
    rewrite <- Zlt_Qlt in C. lia. }
  assert (Uz : (z <= 10000)%Z).
  { assert (C : inject_Z z < inject_Z 10001) by (change (inject_Z 10001) with (10001 # 1); lra).
    rewrite <- Zlt_Qlt in C. lia. }
  rewrite Zle_Qle in Lz, Uz.
  change (inject_Z 0) with 0 in Lz. change (inject_Z 10000) with (10000 # 1) in Uz.
  assert (E : inject_Z z / (10000 # 1) == inject_Z z * (1 # 10000))
    by (field; discriminate).
  rewrite E. lra.
Qed.

Lemma rounded_sum_near (l : list Q) :
  Qsum l - inject_Z (len l) * 0.00005
  <= Qsum (map (fun x => py_round x 4) l)
  <= Qsum l + inject_Z (len l) * 0.00005.
Proof.
  induction l as [| x l IH].
  - change (len (@nil Q)) with 0%Z. change (inject_Z 0) with 0.
    simpl map. change (Qsum []) with 0. lra.
  - simpl map. rewrite !Qsum_cons.
    replace (len (x :: l)) with (len l + 1)%Z by (unfold len; simpl length; lia).
    rewrite inject_Z_plus. change (inject_Z 1) with 1.
    pose proof (py_round_near x). lra.
Qed.

Lemma shares_sum (vs : list Z) (t : Z) :
  ~ inject_Z t == 0 ->
  Qsum (map (fun v => inject_Z v / inject_Z t) vs) == inject_Z (Zsum vs) / inject_Z t.
Proof.
  intros T. induction vs as [| v vs IH].
  - unfold Qsum. simpl. field. exact T.
  - simpl map. rewrite Qsum_cons, IH. simpl Zsum. rewrite inject_Z_plus.
    field. exact T.
Qed.

Lemma rounded_shares_values (d : dict Z) (t : Z) :
  values (rounded_shares d t)
  = map (fun x => py_round x 4) (map (fun v => inject_Z v / inject_Z t) (values d)).
Proof.
  unfold values, rounded_shares. rewrite !map_map. reflexivity.
Qed.

Lemma rounded_shares_keys (d : dict Z) (t : Z) :
  keys (rounded_shares d t) = keys d.
Proof. unfold keys, rounded_shares. rewrite map_map. reflexivity. Qed.

(** The rounded shares of a histogram of [t > 0] observations: each is in
    [0,1], and together they miss 1 by at most half a unit of the fourth
    place per key. *)
Lemma rounded_shares_distribution (K : list string) (t : Z) (d : dict Z) :
  histogram K t d -> (0 < t)%Z ->
  Forall (fun v => 0 <= v <= 1) (values (rounded_shares d t)) /\
  Qabs (Qsum (values (rounded_shares d t)) - 1)
    <= inject_Z (len (rounded_shares d t)) * 0.00005 /\
  (length (rounded_shares d t) <= length K)%nat.
Proof.
  intros H T. pose proof (histogram_size K t d H) as Sz.
  destruct H as (ND & I & S & P).
  assert (Tq : 0 < inject_Z t) by (change 0 with (inject_Z 0); rewrite <- Zlt_Qlt; exact T).
  split; [| split].
  - rewrite rounded_shares_values. apply Forall_forall. intros y Hy.
    apply in_map_iff in Hy. destruct Hy as [x [<- Hx]].
    apply in_map_iff in Hx. destruct Hx as [v [<- Hv]].
    apply py_round_unit.
    destruct (Zsum_bound _ v P Hv) as [V0 V1]. rewrite S in V1.
    apply Zlt_le_weak in V0. rewrite Zle_Qle in V0, V1.
    change (inject_Z 0) with 0 in V0. split.
    + apply Qle_shift_div_l; [exact Tq | lra].
    + apply Qle_shift_div_r; [exact Tq | lra].
  - rewrite rounded_shares_values.
    pose proof (rounded_sum_near (map (fun v => inject_Z v / inject_Z t) (values d))) as R.
    rewrite shares_sum in R by lra. rewrite S in R.
    assert (One : inject_Z t / inject_Z t == 1) by (field; lra).
    rewrite One in R.
    assert (L : len (map (fun x => py_round x 4)
                       (map (fun v => inject_Z v / inject_Z t) (values d)))
                = len (map (fun v => inject_Z v / inject_Z t) (values d)))
      by (unfold len; now rewrite !length_map).
    rewrite <- rounded_shares_values in *.
    assert (L' : len (rounded_shares d t)
                 = len (map (fun v => inject_Z v / inject_Z t) (values d))).
    { unfold len, rounded_shares, values. now rewrite !length_map. }
    rewrite L'. apply Qabs_Qle_condition. lra.
  - unfold rounded_shares. rewrite length_map. exact Sz.
Qed.

(** ** Batches *)

Lemma simulate_entry_ok (early : bool) (risk : string) (max_years starting_age : Z)
    (n : nat) (careers_data : list CareerData) (i : Z) (g : Rng) :
  batch_invariant max_years n careers_data ->
  exists careers_data' g',
    simulate_entry early risk max_years starting_age careers_data i g
      = Ok (careers_data', g') /\
    batch_invariant max_years (S n) careers_data'.
Proof.
  intros [L F]. unfold simulate_entry.
  destruct (simulate_career_ok max_years starting_age
              (Some (new_profile early risk)) g)
    as (path & p & g' & E & Len & A & I & _).
  unfold bind. rewrite E. eexists. eexists. split; [reflexivity |]. split.
  - rewrite length_app. simpl. lia.
  - apply Forall_app. split; [exact F |].
    constructor; [| constructor]. unfold career_entry_ok. simpl. auto.
Qed.

(** A batch of no trajectory divides by the length of an empty list. *)
Lemma run_batch_empty (early : bool) (risk : string) (max_years starting_age n : Z)
    (g : Rng) :
  (n <= 0)%Z ->
  run_batch early risk max_years starting_age n g = Raise ZeroDivisionError.
Proof.
  intros H. unfold run_batch, range.
  replace (Z.to_nat n) with 0%nat by lia. reflexivity.
Qed.

(** A batch of [n > 0] trajectories returns, with its aggregates computed
    from [n] well-formed entries. *)
Lemma run_batch_returns (early : bool) (risk : string)
    (max_years starting_age n : Z) (g : Rng) :
  (0 < n)%Z ->
  exists careers_data g',
    run_batch early risk max_years starting_age n g
    = Ok (mkBatch
            (inject_Z (director_plus_count careers_data)
             / inject_Z (len careers_data))
            (retirement_ages starting_age careers_data)
            (map (fun r => len (unemployment_history (cd_profile r))) careers_data)
            (count_peaks careers_data)
            (len careers_data), g') /\
    batch_invariant max_years (Z.to_nat n) careers_data.
Proof.
  intros H.
  destruct (foldM_total (simulate_entry early risk max_years starting_age)
              (batch_invariant max_years)
              (fun k a b g0 =>
                 simulate_entry_ok early risk max_years starting_age k a b g0)
              (range n) 0%nat [] g)
    as (cds & g' & E & Inv).
  { split; [reflexivity | constructor]. }
  rewrite range_length in Inv. simpl in Inv.
  exists cds, g'. split; [| exact Inv].
  unfold run_batch, bind. rewrite E. unfold true_div.
  destruct Inv as [L _].
  destruct (Z.eqb_spec (len cds) 0) as [Z0 | Z0]; [unfold len in Z0; lia |].
  reflexivity.
Qed.

Lemma run_batch_inv (early : bool) (risk : string) (max_years starting_age n : Z)
    (g g' : Rng) (b : BatchResult) :
  run_batch early risk max_years starting_age n g = Ok (b, g') ->
  (0 < n)%Z /\
  exists careers_data,
    b = mkBatch
          (inject_Z (director_plus_count careers_data)
           / inject_Z (len careers_data))
          (retirement_ages starting_age careers_data)
          (map (fun r => len (unemployment_history (cd_profile r))) careers_data)
          (count_peaks careers_data)
          (len careers_data) /\
    batch_invariant max_years (Z.to_nat n) careers_data.
Proof.
  intros H. destruct (Z_lt_le_dec 0 n) as [P | N].
  - split; [exact P |].
    destruct (run_batch_returns early risk max_years starting_age n g P)
      as (cds & g1 & E & Inv).
    rewrite E in H. inversion H; subst. exists cds. auto.
  - rewrite run_batch_empty in H by exact N. discriminate.
Qed.

Lemma peak_distribution_fold (t : Z) (l : dict Z) (d0 : dict Q) (g : Rng) :
  t <> 0%Z ->
  foldM (fun (d : dict Q) (kv : string * Z) =>
           match true_div (snd kv) t with
           | Raise e => raise e
           | Ok q => ret (d ++ [(fst kv, py_round q 4)])
           end) l d0 g
  = Ok (d0 ++ rounded_shares l t, g).
Proof.
  intros T. revert d0. induction l as [| kv l IH]; intros d0.
  - simpl. unfold ret. now rewrite app_nil_r.
  - assert (E : true_div (snd kv) t = Ok (inject_Z (snd kv) / inject_Z t)).
    { unfold true_div. destruct (Z.eqb_spec t 0) as [C | _];
        [contradiction | reflexivity]. }
    cbn [foldM]. unfold bind at 1. rewrite E. unfold ret at 1.
    rewrite IH, <- app_assoc. reflexivity.
Qed.

Lemma peak_distribution_of_ok (peak_counts : dict Z) (t : Z) (g : Rng) :
  t <> 0%Z ->
  peak_distribution_of peak_counts t g = Ok (rounded_shares peak_counts t, g).
Proof.
  intros T. unfold peak_distribution_of.
  rewrite peak_distribution_fold by exact T. reflexivity.
Qed.

Lemma batch_nonempty (max_years : Z) (n : Z) (careers_data : list CareerData) :
  (0 < n)%Z -> batch_invariant max_years (Z.to_nat n) careers_data ->
  (0 < len careers_data)%Z.
Proof. intros P [L _]. unfold len. lia. Qed.

(** ** The simulation entry point *)

Section EngineProperties.
Context {np : Numpy}.

(** What a returned [SimulationResult] is made of. *)
Lemma run_simulation_inv (config : Config) (g g' : Rng) (r : SimulationResult) :
  run_simulation config g = Ok (r, g') ->
  (0 < config_get (cfg_iterations config) 2500%Z)%Z /\
  exists careers_data,
    batch_invariant (config_get (cfg_max_years config) 45%Z)
      (Z.to_nat (config_get (cfg_iterations config) 2500%Z)) careers_data /\
    peak_role r = rounded_shares (count_peaks careers_data) (len careers_data) /\
    dp_mean (director_probability r)
    = py_round (inject_Z (director_plus_count careers_data)
                / inject_Z (len careers_data)) 4 /\
    total_simulations r = config_get (cfg_iterations config) 2500%Z /\
    meta_config r
    = mkEcho (if String.eqb (config_get (cfg_specialization config) "none") "early"
              then "early" else "none")
             (config_get (cfg_risk_level config) "medium")
             (config_get (cfg_iterations config) 2500%Z)
             (config_get (cfg_max_years config) 45%Z)
             (config_get (cfg_starting_age config) 22%Z)
             (config_get (cfg_compute_ci config) false).
Proof.
  unfold run_simulation. cbv zeta. intros H.
  apply bind_ok in H. destruct H as (b & g1 & Hb & H).
  apply run_batch_inv in Hb. destruct Hb as (P & cds & -> & Inv).
  split; [exact P |]. exists cds. split; [exact Inv |].
  apply bind_ok in H. destruct H as (dm & g2 & Hdm & H).
  assert (Mean : dp_mean dm
                 = py_round (inject_Z (director_plus_count cds)
                             / inject_Z (len cds)) 4).
  { destruct (config_get (cfg_compute_ci config) false).
    - apply bind_ok in Hdm. destruct Hdm as (bp & g3 & _ & Hdm).
      destruct (np_percentile bp 2.5) as [lo | e]; [| discriminate].
      destruct (np_percentile bp 97.5) as [hi | e]; [| discriminate].
      unfold ret in Hdm. inversion Hdm; subst. reflexivity.
    - unfold ret in Hdm. inversion Hdm; subst. reflexivity. }
  apply bind_ok in H. destruct H as (pd & g3 & Hpd & H).
  cbn [peak_counts total] in Hpd.
  rewrite peak_distribution_of_ok in Hpd
    by (pose proof (batch_nonempty _ _ _ P Inv); lia).
  inversion Hpd; subst. unfold ret in H. inversion H; subst.
  cbn [peak_role director_probability total_simulations meta_config].
  auto.
Qed.

(** With a positive number of iterations and no confidence interval asked
    for, the call returns. *)
Lemma run_simulation_returns (config : Config) (g : Rng) :
  (0 < config_get (cfg_iterations config) 2500%Z)%Z ->
  config_get (cfg_compute_ci config) false = false ->
  exists r g', run_simulation config g = Ok (r, g').
Proof.
  intros P C. unfold run_simulation. cbv zeta. rewrite C.
  destruct (run_batch_returns
              (String.eqb (config_get (cfg_specialization config) "none") "early")
              (config_get (cfg_risk_level config) "medium")
              (config_get (cfg_max_years config) 45%Z)
              (config_get (cfg_starting_age config) 22%Z)
              (config_get (cfg_iterations config) 2500%Z) g P)
    as (cds & g1 & E & Inv).
  unfold bind at 1. rewrite E.
  unfold bind at 1. unfold ret at 1.
  unfold bind at 1. cbn [peak_counts total].
  rewrite peak_distribution_of_ok
    by (pose proof (batch_nonempty _ _ _ P Inv); lia).
  eexists. eexists. reflexivity.
Qed.

(** With no iteration to run, the call stops on the division by zero of the
    empty batch. *)
Lemma run_simulation_empty (config : Config) (g : Rng) :
  (config_get (cfg_iterations config) 2500%Z <= 0)%Z ->
  run_simulation config g = Raise ZeroDivisionError.
Proof.
  intros N. unfold run_simulation. cbv zeta. unfold bind at 1.
  rewrite run_batch_empty by exact N. reflexivity.
Qed.

End EngineProperties.

(** ** Properties of the entry points *)

Section EntryPoints.
Context {np : Numpy}.


(** C4, as the code has it: when the number of iterations is positive,
    every value of [distributions.peak_role] is in [0,1]; the values are
    shares rounded to four places, so their sum is within 0.00005 per key of
    1.0, and there are at most nine keys. *)
Theorem peak_role_rounded_distribution (config : Config) (g : Rng) :
  (0 < config_get (cfg_iterations config) 2500%Z)%Z ->
  (config_get (cfg_compute_ci config) false = false ->
   exists r g', run_simulation config g = Ok (r, g')) /\
  (forall r g', run_simulation config g = Ok (r, g') ->
     Forall (fun v => 0 <= v <= 1) (values (peak_role r)) /\
     Qabs (Qsum (values (peak_role r)) - 1)
       <= inject_Z (len (peak_role r)) * 0.00005 /\
     (length (peak_role r) <= 9)%nat).
Proof.
  intros P. split.
  - intros C. apply run_simulation_returns; assumption.
  - intros r g' E. apply run_simulation_inv in E.
    destruct E as (_ & cds & Inv & -> & _).
    pose proof (batch_nonempty _ _ _ P Inv) as T.
    destruct Inv as [_ F].
    apply (rounded_shares_distribution (keys director_ranks)).
    + eapply count_peaks_histogram. exact F.
    + exact T.
Qed.

(** C5: [run_comparative_analysis] returns the results of three runs, in
    this order and on the same generator: control (specialization "none",
    risk "medium"), specialist ("early", "medium") and risktaker ("none",
    "high"), each with the given [iterations] and [compute_ci] and nothing
    else set, as their echoed configurations show; and each delta is exactly
    the difference of the two reported director probabilities rounded to
    four places. *)
Theorem comparative_deltas (iterations : Z) (compute_ci : bool) (g : Rng) :
  ((0 < iterations)%Z -> compute_ci = false ->
   exists r g', run_comparative_analysis iterations compute_ci g = Ok (r, g')) /\
  (forall r g', run_comparative_analysis iterations compute_ci g = Ok (r, g') ->
     (exists g1 g2,
        run_simulation
          (mkConfig (Some "none") (Some "medium") (Some iterations)
                    None None (Some compute_ci) None) g
          = Ok (control r, g1) /\
        run_simulation
          (mkConfig (Some "early") (Some "medium") (Some iterations)
                    None None (Some compute_ci) None) g1
          = Ok (specialist r, g2) /\
        run_simulation
          (mkConfig (Some "none") (Some "high") (Some iterations)
                    None None (Some compute_ci) None) g2
          = Ok (risktaker r, g')) /\
     meta_config (control r)
     = mkEcho "none" "medium" iterations 45 22 compute_ci /\
     meta_config (specialist r)
     = mkEcho "early" "medium" iterations 45 22 compute_ci /\
     meta_config (risktaker r)
     = mkEcho "none" "high" iterations 45 22 compute_ci /\
     specialist_vs_control (deltas r)
     = py_round (dp_mean (director_probability (specialist r))
                 - dp_mean (director_probability (control r))) 4 /\
     risktaker_vs_control (deltas r)
     = py_round (dp_mean (director_probability (risktaker r))
                 - dp_mean (director_probability (control r))) 4).
Proof.
  unfold run_comparative_analysis. split.
  - intros P C.
    destruct (run_simulation_returns
                (intervention "none" "medium" iterations compute_ci) g P C)
      as (r1 & g1 & E1).
    destruct (run_simulation_returns
                (intervention "early" "medium" iterations compute_ci) g1 P C)
      as (r2 & g2 & E2).
    destruct (run_simulation_returns
                (intervention "none" "high" iterations compute_ci) g2 P C)
      as (r3 & g3 & E3).
    unfold bind. rewrite E1, E2, E3. eexists. eexists. reflexivity.
  - intros r g' H.
    apply bind_ok in H. destruct H as (r1 & g1 & E1 & H).
    apply bind_ok in H. destruct H as (r2 & g2 & E2 & H).
    apply bind_ok in H. destruct H as (r3 & g3 & E3 & H).
    unfold ret in H. inversion H; subst. clear H.
    cbn [control specialist risktaker deltas
         specialist_vs_control risktaker_vs_control].
    destruct (run_simulation_inv _ _ _ _ E1) as (_ & c1 & _ & _ & _ & _ & M1).
    destruct (run_simulation_inv _ _ _ _ E2) as (_ & c2 & _ & _ & _ & _ & M2).
    destruct (run_simulation_inv _ _ _ _ E3) as (_ & c3 & _ & _ & _ & _ & M3).
    split; [exists g1, g2; auto |].
    split; [rewrite M1; reflexivity |].
    split; [rewrite M2; reflexivity |].
    split; [rewrite M3; reflexivity |].
    split; reflexivity.
Qed.

(** C10: [get_peak_position] never returns Unemployed or Retired, it returns
    Entry Level when no state of the list has a positive rank, and so
    neither Unemployed nor Retired is a key of [distributions.peak_role]. *)
Theorem peak_is_never_unemployed_or_retired :
  (forall career,
     get_peak_position career <> "Unemployed" /\
     get_peak_position career <> "Retired") /\
  (forall career,
     (forall s, In s career -> (dict_get_default state_ranks s 0 <= 0)%Z) ->
     get_peak_position career = "Entry Level") /\
  (forall config g r g',
     run_simulation config g = Ok (r, g') ->
     ~ In "Unemployed" (keys (peak_role r)) /\
     ~ In "Retired" (keys (peak_role r))).
Proof.
  split; [exact peak_not_rank_zero | split].
  - intros career H. unfold get_peak_position.
    rewrite peak_fold_flat; [reflexivity | lia | exact H].
  - intros config g r g' E. apply run_simulation_inv in E.
    destruct E as (_ & cds & [_ F] & -> & _).
    rewrite rounded_shares_keys.
    destruct (count_peaks_histogram _ _ F) as (_ & I & _).
    split; intros C; apply I in C; simpl in C;
      repeat (destruct C as [C | C]; [discriminate C |]); exact C.
Qed.

End EntryPoints.

(** ** The entry points on concrete runs *)



Lemma peak_role_rounded_distribution_witness :
  exists r g',
    @run_simulation np_sample
      (mkConfig (Some "early") (Some "low") (Some 2%Z) (Some 1%Z)
                (Some 22%Z) (Some false) (Some 30%Z))
      (draws [0.5; 0.1; 0.5; 0.6]) = Ok (r, g') /\
    Forall (fun v => 0 <= v <= 1) (values (peak_role r)) /\
    Qabs (Qsum (values (peak_role r)) - 1)
      <= inject_Z (len (peak_role r)) * 0.00005 /\
    (length (peak_role r) <= 9)%nat.
Proof.
  destruct (@peak_role_rounded_distribution np_sample
              (mkConfig (Some "early") (Some "low") (Some 2%Z) (Some 1%Z)
                        (Some 22%Z) (Some false) (Some 30%Z))
              (draws [0.5; 0.1; 0.5; 0.6]))
    as [Ret Dist].
  - reflexivity.
  - destruct Ret as (r & g' & E); [reflexivity |].
    exists r, g'. split; [exact E | exact (Dist r g' E)].
Defined.

(** C4 as stated fails: three one-year careers that peak at Entry Level,
    Junior and Mid-Level give three shares of 0.3333, whose sum misses 1.0
    by 0.0001. *)
Lemma peak_role_sum_misses_one :
  exists r g',
    @run_simulation np_sample
      (mkConfig (Some "none") (Some "medium") (Some 3%Z) (Some 1%Z)
                (Some 22%Z) (Some false) (Some 30%Z))
      (draws [0.5; 0.1; 0.5; 0.5; 0.5; 0.78]) = Ok (r, g') /\
    peak_role r
    = [("Entry Level", 0.3333); ("Junior", 0.3333); ("Mid-Level", 0.3333)] /\
    ~ Qabs (Qsum (values (peak_role r)) - 1) <= 1e-9.
Proof.
  eexists. eexists. split; [vm_compute; reflexivity |].
  split; [reflexivity |]. vm_compute. intros C. apply C. reflexivity.
Qed.

Lemma comparative_deltas_witness :
  exists r g',
    @run_comparative_analysis np_sample 1%Z false
      (draws [0.5; 0.78; 0.5; 0.72; 0.5; 0.72]) = Ok (r, g') /\
    dp_mean (director_probability (control r)) == 1 /\
    dp_mean (director_probability (specialist r)) == 0 /\
    specialist_vs_control (deltas r) == -1 /\
    meta_config (specialist r) = mkEcho "early" "medium" 1 45 22 false /\
    specialist_vs_control (deltas r)
    = py_round (dp_mean (director_probability (specialist r))
                - dp_mean (director_probability (control r))) 4.
Proof.
  destruct (@run_comparative_analysis np_sample 1%Z false
              (draws [0.5; 0.78; 0.5; 0.72; 0.5; 0.72]))
    as [[r g'] | e] eqn:E.
  - exists r, g'. split; [reflexivity |].
    destruct (proj2 (@comparative_deltas np_sample 1%Z false
                       (draws [0.5; 0.78; 0.5; 0.72; 0.5; 0.72])) r g' E)
      as (_ & _ & M2 & _ & D1 & _).
    vm_compute in E. injection E as Hr Hg. subst r.
    split; [reflexivity |]. split; [reflexivity |]. split; [reflexivity |].
    split; [exact M2 | exact D1].
  - vm_compute in E. discriminate E.
Defined.

Lemma peak_is_never_unemployed_or_retired_witness :
  get_peak_position ["Unemployed"; "Retired"; "Unemployed"] = "Entry Level" /\
  exists r g',
    @run_simulation np_sample
      (mkConfig (Some "none") (Some "high") (Some 2%Z) (Some 2%Z)
                (Some 22%Z) (Some false) (Some 30%Z))
      (draws [0.5; 0.9; 0.5; 0.99; 0.5; 0.5; 0.5; 0.5]) = Ok (r, g') /\
    ~ In "Unemployed" (keys (peak_role r)) /\
    ~ In "Retired" (keys (peak_role r)).
Proof.
  destruct (@peak_is_never_unemployed_or_retired np_sample) as (_ & Flat & Keys).
  split.
  - apply Flat. intros s [<- | [<- | [<- | []]]]; vm_compute; discriminate.
  - destruct (@run_simulation_returns np_sample
                (mkConfig (Some "none") (Some "high") (Some 2%Z) (Some 2%Z)
                          (Some 22%Z) (Some false) (Some 30%Z))
                (draws [0.5; 0.9; 0.5; 0.99; 0.5; 0.5; 0.5; 0.5]))
      as (r & g' & E); [reflexivity | reflexivity |].
    exists r, g'. split; [exact E | exact (Keys _ _ _ _ E)].
Defined.

(** ** Retirement ages of a batch *)

Lemma index_of_bounds (career : list string) (x : string) (i : Z) :
  index_of career x = Some i -> (0 <= i < len career)%Z.
Proof.
  revert i. induction career as [| s career IH]; intros i; simpl.
  - discriminate.
  - destruct (String.eqb s x).
    + intros H. inversion H; subst. unfold len. simpl length. lia.
    + destruct (index_of career x) as [j |]; [| discriminate].
      intros H. inversion H; subst. specialize (IH j eq_refl).
      unfold len in *. simpl length. lia.
Qed.

(** No reported retirement age exceeds [starting_age + max_years]. *)
Lemma retirement_ages_upper_bound (max_years starting_age : Z)
    (careers_data : list CareerData) :
  (0 <= max_years)%Z ->
  Forall (career_entry_ok max_years) careers_data ->
  Forall (fun a => (starting_age <= a <= starting_age + max_years)%Z)
         (retirement_ages starting_age careers_data).
Proof.
  intros My F. unfold retirement_ages. apply Forall_forall. intros a Ha.
  apply in_flat_map in Ha. destruct Ha as (r & Hr & Ha).
  rewrite Forall_forall in F. destruct (F r Hr) as (_ & L & _).
  destruct (index_of (cd_career r) "Retired") as [i |] eqn:E; [| contradiction].
  destruct Ha as [<- | []]. apply index_of_bounds in E.
  unfold len in E. rewrite L in E. lia.
Qed.

(** The retirement test itself respects the floor: below 55 its probability
    is 0.0, which no draw of [random.random()] is below. *)
Lemma retirement_test_respects_floor (profile : CareerProfile) (s : string)
    (year age : Z) (u : Q) :
  s <> "Retired" -> (age < 55)%Z -> 0 <= u ->
  Qltb u (get_retirement_probability profile s year age) = false.
Proof.
  intros R A U.
  rewrite (proj2 (proj2 (retirement_probability_cases profile s year age)) R A).
  apply Qltb_false. lra.
Qed.

(** C2, on the run that breaks it: starting at 22 with a horizon of 45
    years, one career that goes Entry Level, Unemployed, Retired through the
    transition table (the Unemployed row gives Retired the weight 0.02 at
    every age) is reported with retirement age 24, below the floor of 55. *)
Theorem retirement_age_below_floor :
  exists b g',
    run_batch false "medium" 45 22 1 (draws [0.5; 0.9; 0.5; 0.99]) = Ok (b, g') /\
    retire_ages b = [24%Z].
Proof.
  eexists. eexists. split; [vm_compute; reflexivity | reflexivity].
Qed.

(** * Further properties of the engine *)

(** ** Shape of a trajectory *)

(** X1: [simulate_career] returns one entry per simulated year after the
    initial one, the first entry is Entry Level and every entry is one of
    the eleven states. *)
Theorem career_path_shape (max_years starting_age : Z)
    (profile : option CareerProfile) (g : Rng) :
  exists path p g',
    simulate_career max_years starting_age profile g = Ok ((path, p), g') /\
    len path = (Z.max 0 max_years + 1)%Z /\
    hd_error path = Some "Entry Level" /\
    Forall (fun s => In s STATES) path.
Proof.
  destruct (simulate_career_ok max_years starting_age profile g)
    as (path & p & g' & E & L & _ & I & H).
  exists path, p, g'. split; [exact E |]. split; [| split].
  - unfold len. rewrite L. lia.
  - exact H.
  - apply Forall_forall. exact I.
Qed.

(** X2: with no year to simulate ([max_years <= 0]) the trajectory is the
    initial Entry Level alone, the profile is handed back untouched and no
    random number is drawn. *)
Theorem empty_horizon (max_years starting_age : Z) (p : CareerProfile) (g : Rng) :
  (max_years <= 0)%Z ->
  simulate_career max_years starting_age (Some p) g
  = Ok ((["Entry Level"], p), g).
Proof.
  intros H. unfold simulate_career, range.
  replace (Z.to_nat max_years) with 0%nat by lia. reflexivity.
Qed.

Lemma empty_horizon_witness :
  simulate_career 0 22 (Some (new_profile true "high")) (draws [0.3; 0.7])
  = Ok ((["Entry Level"], new_profile true "high"), draws [0.3; 0.7]).
Proof. apply empty_horizon. lia. Defined.

(** ** Peak position *)

Lemma peak_fold_max (career : list string) (m : Z) (pk : string) :
  let r := fold_left peak_step career (m, pk) in
  (m <= fst r)%Z /\
  Forall (fun s => (rank s <= fst r)%Z) career /\
  (r = (m, pk) \/ (fst r = rank (snd r) /\ In (snd r) career)).
Proof.
  revert m pk. induction career as [| s career IH]; intros m pk.
  - simpl. split; [lia | split; [constructor | now left]].
  - change (fold_left peak_step (s :: career) (m, pk))
      with (fold_left peak_step career (peak_step (m, pk) s)).
    assert (E : peak_step (m, pk) s
                = if (rank s >? m)%Z then (rank s, s) else (m, pk))
      by reflexivity.
    rewrite E. clear E.
    destruct (Z.gtb_spec (rank s) m) as [G | G].
    + destruct (IH (rank s) s) as (M & F & C). cbv zeta in *.
      split; [lia | split].
      * constructor; [exact M | exact F].
      * right. destruct C as [C | [C1 C2]].
        -- rewrite C. simpl. auto.
        -- split; [exact C1 | now right].
    + destruct (IH m pk) as (M & F & C). cbv zeta in *.
      split; [exact M | split].
      * constructor; [lia | exact F].
      * destruct C as [C | [C1 C2]]; [now left | right].
        split; [exact C1 | now right].
Qed.

Lemma peak_rank_and_origin (career : list string) :
  Forall (fun s => (rank s <= rank (get_peak_position career))%Z) career /\
  (get_peak_position career = "Entry Level"
   \/ In (get_peak_position career) career).
Proof.
  unfold get_peak_position.
  destruct (peak_fold_max career 0%Z "Entry Level") as (M & F & C).
  cbv zeta in *. destruct C as [C | [C1 C2]].
  - rewrite C in *. simpl in *. split; [| now left].
    eapply Forall_impl; [| exact F]. intros s Hs. simpl in Hs.
    change (rank "Entry Level") with 1%Z. lia.
  - split; [| now right]. rewrite <- C1. exact F.
Qed.

(** X3: the state returned by [get_peak_position] has a rank at least that
    of every state of the career, and it is a state of the career unless it
    is the default Entry Level. *)
Theorem peak_has_highest_rank (career : list string) :
  Forall (fun s => (rank s <= rank (get_peak_position career))%Z) career /\
  (get_peak_position career = "Entry Level"
   \/ In (get_peak_position career) career).
Proof. apply peak_rank_and_origin. Qed.

(** ** Momentum *)

Lemma py_max_zero (x : Q) : py_max 0 x == (if Qltb 0 x then x else 0).
Proof. unfold py_max. destruct (Qltb 0 x); reflexivity. Qed.

Lemma update_momentum_bounded (p : CareerProfile) (o n : string) :
  momentum_bounded p -> momentum_bounded (update_momentum p o n).
Proof.
  unfold momentum_bounded, update_momentum. intros [L U].
  destruct (_ >? _)%Z; [| destruct (_ <? _)%Z]; simpl; unfold py_max;
    repeat match goal with
           | |- context [Qltb ?a ?b] =>
               let E := fresh "E" in
               destruct (Qltb a b) eqn:E;
               [apply Qltb_true in E | apply Qltb_false in E]
           end; lra.
Qed.

(** X4: the momentum score stays between 0 and 18 under any sequence of
    burnout and momentum updates: a promotion adds 2 before the decay by
    0.9, and 18 is where the two balance. *)
Theorem momentum_never_exceeds_18 (p : CareerProfile) (us : list profile_update) :
  momentum_bounded p -> momentum_bounded (fold_left apply_update us p).
Proof.
  revert p. induction us as [| u us IH]; intros p H; simpl.
  - exact H.
  - apply IH. destruct u as [s y | o n]; unfold apply_update.
    + exact H.
    + apply update_momentum_bounded. exact H.
Qed.

Lemma momentum_never_exceeds_18_witness :
  momentum_bounded
    (fold_left apply_update
       [UpdateMomentum "Entry Level" "Junior"; UpdateMomentum "Junior" "Senior";
        UpdateBurnout "Senior" 2; UpdateMomentum "Senior" "Unemployed"]
       (new_profile false "high")).
Proof.
  apply momentum_never_exceeds_18. unfold momentum_bounded. simpl. lra.
Defined.

(** ** The profile and the generator along a trajectory *)

Lemma foldM_partial_rng {A B} (f : A -> B -> M A) (I : nat -> A -> Rng -> Prop) :
  (forall n a b g a' g', I n a g -> f a b g = Ok (a', g') -> I (S n) a' g') ->
  forall l n a g a' g', I n a g -> foldM f l a g = Ok (a', g') ->
    I (n + length l)%nat a' g'.
Proof.
  intros Step l. induction l as [| b l IH]; intros n a g a' g' Ia E; simpl in *.
  - unfold ret in E. inversion E; subst. rewrite Nat.add_0_r. exact Ia.
  - apply bind_ok in E. destruct E as [a1 [g1 [E1 E2]]].
    rewrite <- Nat.add_succ_comm. eapply IH; [| exact E2].
    eapply Step; eauto.
Qed.

(** A returned choice is one of the candidates and costs one draw. *)
Lemma random_choices_inv (population : list string) (weights : list Q)
    (g g' : Rng) (s : string) :
  random_choices population weights g = Ok (s, g') ->
  In s population /\ g' = shift 1 g.
Proof.
  unfold random_choices.
  destruct (Nat.eqb_spec (length (accumulate weights)) (length population))
    as [L | L]; simpl negb; cbv iota; [| discriminate].
  destruct (rev (accumulate weights)) as [| t r] eqn:R; [discriminate |].
  destruct (Qle_bool t 0); [discriminate |].
  unfold bind, random_random, ret. intros H. inversion H; subst. split.
  - apply nth_In.
    assert (P : (0 < length (accumulate weights))%nat).
    { rewrite <- (length_rev (accumulate weights)), R. simpl. lia. }
    pose proof (bisect_le (accumulate weights) (g 0%nat * t)
                          (length population - 1)). lia.
  - reflexivity.
Qed.

Lemma update_momentum_tracks (p : CareerProfile) (o n : string) :
  early_specialization (update_momentum p o n) = early_specialization p /\
  risk_tolerance (update_momentum p o n) = risk_tolerance p /\
  unemployment_history (update_momentum p o n) = unemployment_history p /\
  (total_promotions p <= total_promotions (update_momentum p o n))%Z /\
  (total_demotions p <= total_demotions (update_momentum p o n))%Z /\
  (total_promotions (update_momentum p o n) + total_demotions (update_momentum p o n)
   <= total_promotions p + total_demotions p + 1)%Z.
Proof.
  unfold update_momentum.
  destruct (_ >? _)%Z; [| destruct (_ <? _)%Z]; simpl; repeat split; lia.
Qed.

Lemma unemployed_years_snoc (path : list string) (s : string) :
  unemployed_years (path ++ [s])
  = (unemployed_years path + (if String.eqb s "Unemployed" then 1 else 0))%Z.
Proof.
  unfold unemployed_years. rewrite count_occ_app. simpl.
  destruct (string_dec s "Unemployed") as [E | E].
  - rewrite E. simpl. lia.
  - apply String.eqb_neq in E. rewrite E. lia.
Qed.

Lemma shift_shift (j k : nat) (g0 g g' : Rng) :
  (forall i, g i = shift k g0 i) -> (forall i, g' i = shift j g i) ->
  forall i, g' i = shift (k + j) g0 i.
Proof.
  intros H H' i. rewrite H'. unfold shift. rewrite H. unfold shift.
  f_equal. lia.
Qed.

(** The profile after a year that ends in the transition to [next]. *)
Lemma year_profile_tracks (p : CareerProfile) (s next : string) (year : Z) :
  let pm := update_momentum (update_burnout p s year) s next in
  let pf := if String.eqb next "Unemployed"
            then record_unemployment pm year else pm in
  early_specialization pf = early_specialization p /\
  risk_tolerance pf = risk_tolerance p /\
  len (unemployment_history pf)
  = (len (unemployment_history p)
     + (if String.eqb next "Unemployed" then 1 else 0))%Z /\
  (total_promotions p <= total_promotions pf)%Z /\
  (total_demotions p <= total_demotions pf)%Z /\
  (total_promotions pf + total_demotions pf
   <= total_promotions p + total_demotions p + 1)%Z /\
  (scores_nonneg p -> scores_nonneg pf).
Proof.
  intros pm pf.
  destruct (update_momentum_tracks (update_burnout p s year) s next)
    as (E1 & E2 & E3 & E4 & E5 & E6).
  fold pm in E1, E2, E3, E4, E5, E6.
  change (early_specialization (update_burnout p s year))
    with (early_specialization p) in E1.
  change (risk_tolerance (update_burnout p s year))
    with (risk_tolerance p) in E2.
  change (unemployment_history (update_burnout p s year))
    with (unemployment_history p) in E3.
  change (total_promotions (update_burnout p s year))
    with (total_promotions p) in E4, E6.
  change (total_demotions (update_burnout p s year))
    with (total_demotions p) in E5, E6.
  assert (Sc : scores_nonneg p -> scores_nonneg pm).
  { intros N. apply (apply_update_nonneg _ (UpdateMomentum s next)).
    apply (apply_update_nonneg p (UpdateBurnout s year)). exact N. }
  subst pf. destruct (String.eqb next "Unemployed").
  - change (early_specialization (record_unemployment pm year))
      with (early_specialization pm).
    change (risk_tolerance (record_unemployment pm year))
      with (risk_tolerance pm).
    change (unemployment_history (record_unemployment pm year))
      with (unemployment_history pm ++ [year]).
    change (total_promotions (record_unemployment pm year))
      with (total_promotions pm).
    change (total_demotions (record_unemployment pm year))
      with (total_demotions pm).
    rewrite E3. unfold len. rewrite length_app. simpl length.
    repeat split; try assumption; try lia.
    + destruct (Sc H) as [B _]. exact B.
    + destruct (Sc H) as [_ Mo]. exact Mo.
  - rewrite E3. repeat split; try assumption; try lia.
    + destruct (Sc H) as [B _]. exact B.
    + destruct (Sc H) as [_ Mo]. exact Mo.
Qed.

Lemma tracking_step (p0 : CareerProfile) (g0 : Rng) (n : nat)
    (st : career_loop) (year : Z) (g : Rng) (st' : career_loop) (g' : Rng) :
  tracking_invariant p0 g0 n st g ->
  simulate_year st year g = Ok (st', g') ->
  tracking_invariant p0 g0 (S n) st' g'.
Proof.
  intros (Es & Rt & Un & Pr & De & Su & Sc & (k & Hk & Sh)) H.
  unfold simulate_year in H.
  destruct (String.eqb_spec (current_state st) "Retired") as [R | R].
  - unfold ret in H. inversion H; subst st' g'. clear H.
    unfold tracking_invariant.
    cbn [loop_profile career_path].
    rewrite unemployed_years_snoc, R.
    change (String.eqb "Retired" "Unemployed") with false.
    split; [exact Es |]. split; [exact Rt |]. split; [lia |].
    split; [exact Pr |]. split; [exact De |]. split; [lia |].
    split; [exact Sc |]. exists k. split; [lia | exact Sh].
  - apply bind_ok in H. destruct H as (u & g1 & Hu & H).
    unfold random_random in Hu. inversion Hu; subst u g1. clear Hu.
    destruct (Qltb _ _).
    + unfold ret in H. inversion H; subst st' g'. clear H.
      unfold tracking_invariant. cbn [loop_profile career_path].
      rewrite unemployed_years_snoc.
      change (String.eqb "Retired" "Unemployed") with false.
      split; [exact Es |]. split; [exact Rt |]. split; [change (unemployment_history (update_burnout (loop_profile st) (current_state st) year)) with (unemployment_history (loop_profile st)); lia |].
      split; [exact Pr |]. split; [exact De |]. split; [change (total_promotions (update_burnout (loop_profile st) (current_state st) year)) with (total_promotions (loop_profile st)); change (total_demotions (update_burnout (loop_profile st) (current_state st) year)) with (total_demotions (loop_profile st)); lia |].
      split.
      * intros N.
        apply (apply_update_nonneg (loop_profile st)
                 (UpdateBurnout (current_state st) year)). auto.
      * exists (k + 1)%nat. split; [lia |].
        apply (shift_shift 1 k g0 g); [exact Sh | reflexivity].
    + destruct (dict_get TRANSITIONS (current_state st)) as [row |];
        [| discriminate].
      apply bind_ok in H. destruct H as (next & g2 & Hc & H).
      apply random_choices_inv in Hc. destruct Hc as [_ ->].
      unfold ret in H. inversion H; subst st' g'. clear H.
      destruct (year_profile_tracks (loop_profile st) (current_state st)
                  next year) as (F1 & F2 & F3 & F4 & F5 & F6 & F7).
      unfold tracking_invariant. cbn [loop_profile career_path].
      rewrite unemployed_years_snoc.
      split; [congruence |]. split; [congruence |]. split; [lia |].
      split; [lia |]. split; [lia |]. split; [lia |].
      split; [intros N; apply F7; auto |].
      exists (k + 2)%nat. split; [lia |].
      apply (shift_shift 2 k g0 g); [exact Sh |].
      intros i. unfold shift. f_equal.
Qed.

(** Everything the loop keeps, for a call that returns; and every call
    returns. *)
Lemma simulate_career_tracks (max_years starting_age : Z) (p0 : CareerProfile)
    (g : Rng) :
  exists path p g',
    simulate_career max_years starting_age (Some p0) g = Ok ((path, p), g') /\
    length path = S (Z.to_nat max_years) /\
    absorbing path /\ incl path STATES /\
    hd_error path = Some "Entry Level" /\
    early_specialization p = early_specialization p0 /\
    risk_tolerance p = risk_tolerance p0 /\
    len (unemployment_history p)
    = (len (unemployment_history p0) + unemployed_years path)%Z /\
    (total_promotions p0 <= total_promotions p)%Z /\
    (total_demotions p0 <= total_demotions p)%Z /\
    (total_promotions p + total_demotions p
     <= total_promotions p0 + total_demotions p0 + Z.max 0 max_years)%Z /\
    (scores_nonneg p0 -> scores_nonneg p) /\
    (exists k, (k <= 2 * Z.to_nat max_years)%nat /\ forall i, g' i = shift k g i).
Proof.
  destruct (simulate_career_ok max_years starting_age (Some p0) g)
    as (path & p & g' & E & L & A & I & H).
  exists path, p, g'. split; [exact E |].
  split; [exact L |]. split; [exact A |]. split; [exact I |]. split; [exact H |].
  unfold simulate_career in E. apply bind_ok in E.
  destruct E as (st & g1 & F & E). unfold ret in E. inversion E; subst. clear E.
  pose proof (foldM_partial_rng simulate_year (tracking_invariant p0 g)
                (fun n a b g2 a' g3 => tracking_step p0 g n a b g2 a' g3)
                (range max_years) 0%nat
                (mkLoop "Entry Level" ["Entry Level"] starting_age p0) g st g')
    as T.
  rewrite range_length in T. simpl plus in T.
  destruct T as (Es & Rt & Un & Pr & De & Su & Sc & Sh).
  - unfold tracking_invariant. cbn [loop_profile career_path].
    change (unemployed_years ["Entry Level"]) with 0%Z.
    split; [reflexivity |]. split; [reflexivity |]. split; [lia |].
    split; [lia |]. split; [lia |]. split; [lia |].
    split; [tauto |]. exists 0%nat. split; [lia | reflexivity].
  - exact F.
  - cbn [fst snd]. split; [exact Es |]. split; [exact Rt |].
    split; [exact Un |]. split; [exact Pr |]. split; [exact De |].
    split; [lia |]. split; [exact Sc | exact Sh].
Qed.

(** X5: [simulate_career] never changes the decisions of the profile it is
    given; the promotion and demotion counters never decrease and together
    grow by at most one per simulated year; scores that start non-negative
    end non-negative. *)
Theorem career_keeps_decisions (max_years starting_age : Z) (p0 : CareerProfile)
    (g : Rng) :
  exists path p g',
    simulate_career max_years starting_age (Some p0) g = Ok ((path, p), g') /\
    early_specialization p = early_specialization p0 /\
    risk_tolerance p = risk_tolerance p0 /\
    (total_promotions p0 <= total_promotions p)%Z /\
    (total_demotions p0 <= total_demotions p)%Z /\
    (total_promotions p + total_demotions p
     <= total_promotions p0 + total_demotions p0 + Z.max 0 max_years)%Z /\
    (scores_nonneg p0 -> scores_nonneg p).
Proof.
  destruct (simulate_career_tracks max_years starting_age p0 g)
    as (path & p & g' & E & _ & _ & _ & _ & Es & Rt & _ & Pr & De & Su & Sc & _).
  exists path, p, g'. auto 10.
Qed.

Lemma career_keeps_decisions_witness :
  exists path p g',
    simulate_career 3 22 (Some (new_profile true "low"))
      (draws [0.5; 0.5; 0.5; 0.9; 0.5; 0.1]) = Ok ((path, p), g') /\
    early_specialization p = true /\ risk_tolerance p = "low" /\
    scores_nonneg p.
Proof.
  destruct (career_keeps_decisions 3 22 (new_profile true "low")
              (draws [0.5; 0.5; 0.5; 0.9; 0.5; 0.1]))
    as (path & p & g' & E & Es & Rt & _ & _ & _ & Sc).
  exists path, p, g'. split; [exact E |]. split; [exact Es |].
  split; [exact Rt |]. apply Sc. split; simpl; lra.
Defined.

(** X6: the unemployment history grows by exactly one entry for each
    Unemployed entry of the trajectory, so for a fresh profile its length is
    the number of years spent unemployed and is at most the horizon. *)
Theorem unemployment_history_counts_years (max_years starting_age : Z)
    (p0 : CareerProfile) (g : Rng) :
  exists path p g',
    simulate_career max_years starting_age (Some p0) g = Ok ((path, p), g') /\
    len (unemployment_history p)
    = (len (unemployment_history p0) + unemployed_years path)%Z /\
    (0 <= unemployed_years path <= Z.max 0 max_years)%Z.
Proof.
  destruct (simulate_career_tracks max_years starting_age p0 g)
    as (path & p & g' & E & L & _ & _ & H & _ & _ & Un & _).
  exists path, p, g'. split; [exact E |]. split; [exact Un |].
  unfold unemployed_years.
  destruct path as [| s path]; [discriminate |].
  simpl in H. inversion H; subst s. simpl in L.
  rewrite count_occ_cons_neq by discriminate.
  pose proof (count_occ_bound string_dec "Unemployed" path). lia.
Qed.

(** X7: a trajectory of [max_years] years draws at most two
    random numbers per year, and leaves the generator advanced by exactly
    the draws it made. *)
Theorem career_draws_at_most_two_per_year (max_years starting_age : Z)
    (p0 : CareerProfile) (g : Rng) :
  exists path p g' k,
    simulate_career max_years starting_age (Some p0) g = Ok ((path, p), g') /\
    (k <= 2 * Z.to_nat max_years)%nat /\
    forall i, g' i = g (k + i)%nat.
Proof.
  destruct (simulate_career_tracks max_years starting_age p0 g)
    as (path & p & g' & E & _ & _ & _ & _ & _ & _ & _ & _ & _ & _ & _ & k & Hk & Sh).
  exists path, p, g', k. auto.
Qed.

(** ** Aggregates of a batch *)

Lemma run_batch_unfold (early : bool) (risk : string)
    (max_years starting_age n : Z) (g g' : Rng) (b : BatchResult) :
  run_batch early risk max_years starting_age n g = Ok (b, g') ->
  exists careers_data,
    foldM (simulate_entry early risk max_years starting_age) (range n) [] g
    = Ok (careers_data, g') /\
    len careers_data <> 0%Z /\
    b = mkBatch
          (inject_Z (director_plus_count careers_data)
           / inject_Z (len careers_data))
          (retirement_ages starting_age careers_data)
          (map (fun r => len (unemployment_history (cd_profile r))) careers_data)
          (count_peaks careers_data)
          (len careers_data).
Proof.
  unfold run_batch. intros H. apply bind_ok in H.
  destruct H as (cds & g1 & F & H). exists cds.
  unfold true_div in H. destruct (Z.eqb_spec (len cds) 0) as [Z0 | Z0].
  - discriminate.
  - unfold ret in H. inversion H; subst. auto.
Qed.

Lemma simulate_entry_tracks (early : bool) (risk : string)
    (max_years starting_age : Z) (n : nat) (careers_data : list CareerData)
    (i : Z) (g : Rng) (careers_data' : list CareerData) (g' : Rng) :
  batch_tracks early risk max_years n careers_data ->
  simulate_entry early risk max_years starting_age careers_data i g
    = Ok (careers_data', g') ->
  batch_tracks early risk max_years (S n) careers_data'.
Proof.
  intros [L F] H. unfold simulate_entry in H.
  destruct (simulate_career_tracks max_years starting_age
              (new_profile early risk) g)
    as (path & p & g1 & E & Len & A & I & Hd & Es & Rt & Un & _ & _ & _ & Sc & _).
  unfold bind in H. rewrite E in H. unfold ret in H. inversion H; subst.
  split.
  - rewrite length_app. simpl. lia.
  - apply Forall_app. split; [exact F |]. constructor; [| constructor].
    unfold entry_tracks, career_entry_ok.
    cbn [cd_career cd_peak cd_profile cd_final_state].
    split; [auto |]. split; [exact Hd |]. split; [exact Es |].
    split; [exact Rt |]. split; [| split; [| reflexivity]].
    + rewrite Un.
      change (len (unemployment_history (new_profile early risk))) with 0%Z.
      lia.
    + apply Sc. split; simpl; lra.
Qed.

Lemma run_batch_tracks (early : bool) (risk : string)
    (max_years starting_age n : Z) (g g' : Rng) (b : BatchResult) :
  run_batch early risk max_years starting_age n g = Ok (b, g') ->
  (0 < n)%Z /\
  exists careers_data,
    batch_tracks early risk max_years (Z.to_nat n) careers_data /\
    b = mkBatch
          (inject_Z (director_plus_count careers_data)
           / inject_Z (len careers_data))
          (retirement_ages starting_age careers_data)
          (map (fun r => len (unemployment_history (cd_profile r))) careers_data)
          (count_peaks careers_data)
          (len careers_data).
Proof.
  intros H. apply run_batch_unfold in H. destruct H as (cds & F & Z0 & ->).
  pose proof (foldM_partial (simulate_entry early risk max_years starting_age)
                (batch_tracks early risk max_years)
                (fun k a i g0 a' g1 =>
                   simulate_entry_tracks early risk max_years starting_age
                     k a i g0 a' g1)
                (range n) 0%nat [] g cds g') as T.
  rewrite range_length in T. simpl plus in T.
  assert (Inv : batch_tracks early risk max_years (Z.to_nat n) cds).
  { apply T; [split; [reflexivity | constructor] | exact F]. }
  split.
  - destruct Inv as [L _]. unfold len in Z0. lia.
  - exists cds. auto.
Qed.

Lemma index_of_after_head (career : list string) (h x : string) (i : Z) :
  hd_error career = Some h -> h <> x ->
  index_of career x = Some i -> (1 <= i)%Z.
Proof.
  destruct career as [| s career]; [discriminate |].
  simpl. intros H N. inversion H; subst s.
  apply String.eqb_neq in N. rewrite N.
  destruct (index_of career x) as [j |] eqn:E; [| discriminate].
  intros J. inversion J; subst. apply index_of_bounds in E. lia.
Qed.

Lemma retirement_ages_length (starting_age : Z) (careers_data : list CareerData) :
  (len (retirement_ages starting_age careers_data) <= len careers_data)%Z.
Proof.
  unfold len, retirement_ages. induction careers_data as [| r l IH]; simpl.
  - lia.
  - rewrite length_app.
    destruct (index_of (cd_career r) "Retired"); simpl length; lia.
Qed.

(** X8: every retirement age a batch reports is above the starting age and
    at most [starting_age + max_years], and there is at most one per
    trajectory. *)
Theorem retirement_ages_in_range (early : bool) (risk : string)
    (max_years starting_age n : Z) (g g' : Rng) (b : BatchResult) :
  run_batch early risk max_years starting_age n g = Ok (b, g') ->
  Forall (fun a => (starting_age < a <= starting_age + max_years)%Z)
         (retire_ages b) /\
  (len (retire_ages b) <= n)%Z.
Proof.
  intros H. apply run_batch_tracks in H.
  destruct H as (P & cds & [L F] & ->). cbn [retire_ages]. split.
  - unfold retirement_ages. apply Forall_forall. intros a Ha.
    apply in_flat_map in Ha. destruct Ha as (r & Hr & Ha).
    rewrite Forall_forall in F.
    destruct (F r Hr) as ((_ & Len & _) & Hd & _).
    destruct (index_of (cd_career r) "Retired") as [i |] eqn:E;
      [| contradiction].
    destruct Ha as [<- | []].
    pose proof (index_of_bounds _ _ _ E) as B.
    assert (N : "Entry Level" <> "Retired") by discriminate.
    pose proof (index_of_after_head _ _ _ _ Hd N E) as One.
    unfold len in B. rewrite Len in B. lia.
  - pose proof (retirement_ages_length starting_age cds) as R.
    unfold len in *. lia.
Qed.

Lemma retirement_ages_in_range_witness :
  exists b g',
    run_batch false "medium" 45 22 1 (draws [0.5; 0.9; 0.5; 0.99]) = Ok (b, g') /\
    Forall (fun a => (22 < a <= 22 + 45)%Z) (retire_ages b) /\
    (len (retire_ages b) <= 1)%Z.
Proof.
  destruct (run_batch_returns false "medium" 45 22 1
              (draws [0.5; 0.9; 0.5; 0.99])) as (cds & g' & E & _);
    [reflexivity |].
  eexists. exists g'. split; [exact E |].
  exact (retirement_ages_in_range _ _ _ _ _ _ _ _ E).
Defined.

Lemma director_plus_count_bounds (careers_data : list CareerData) :
  (0 <= director_plus_count careers_data <= len careers_data)%Z.
Proof.
  unfold director_plus_count, len.
  pose proof (filter_length_le
                (fun r => (dict_get_default director_ranks (cd_peak r) 0 >=? 7)%Z)
                careers_data). lia.
Qed.

Lemma fraction_unit (a b : Z) :
  (0 <= a <= b)%Z -> (0 < b)%Z -> 0 <= inject_Z a / inject_Z b <= 1.
Proof.
  intros [A B] P. rewrite Zle_Qle in A, B. rewrite Zlt_Qlt in P.
  change (inject_Z 0) with 0 in *. split.
  - apply Qle_shift_div_l; [exact P | lra].
  - apply Qle_shift_div_r; [exact P | lra].
Qed.

(** X9: the aggregates of a batch of [n] trajectories agree with each other:
    the total is [n], the peak counts add up to [n], there is one
    unemployment duration per trajectory, and the director-or-above rate is
    a fraction in [0,1]. *)
Theorem batch_aggregates_agree (early : bool) (risk : string)
    (max_years starting_age n : Z) (g g' : Rng) (b : BatchResult) :
  run_batch early risk max_years starting_age n g = Ok (b, g') ->
  total b = n /\
  Zsum (values (peak_counts b)) = n /\
  len (unemployment_durations b) = n /\
  0 <= director_prob b <= 1.
Proof.
  intros H. apply run_batch_tracks in H.
  destruct H as (P & cds & [L F] & ->).
  cbn [total peak_counts unemployment_durations director_prob].
  assert (Ln : len cds = n) by (unfold len; lia).
  split; [exact Ln |]. split; [| split].
  - assert (F' : Forall (career_entry_ok max_years) cds).
    { eapply Forall_impl; [| exact F]. intros r (C & _). exact C. }
    destruct (count_peaks_histogram max_years cds F') as (_ & _ & S & _).
    rewrite S. exact Ln.
  - unfold len in *. rewrite length_map. exact Ln.
  - apply fraction_unit; [apply director_plus_count_bounds | lia].
Qed.

Lemma batch_aggregates_agree_witness :
  exists b g',
    run_batch true "high" 2 30 2 (draws [0.5; 0.5; 0.5; 0.9; 0.5; 0.1; 0.5; 0.5])
      = Ok (b, g') /\
    total b = 2%Z /\ Zsum (values (peak_counts b)) = 2%Z /\
    len (unemployment_durations b) = 2%Z /\ 0 <= director_prob b <= 1.
Proof.
  destruct (run_batch_returns true "high" 2 30 2
              (draws [0.5; 0.5; 0.5; 0.9; 0.5; 0.1; 0.5; 0.5]))
    as (cds & g' & E & _); [reflexivity |].
  eexists. exists g'. split; [exact E |].
  exact (batch_aggregates_agree _ _ _ _ _ _ _ _ E).
Defined.

(** X10: each unemployment duration of a batch is the number of Unemployed
    entries of the trajectory it was computed from, in the order the
    trajectories were run, so it lies between 0 and the horizon. *)
Theorem unemployment_durations_are_unemployed_years (early : bool)
    (risk : string) (max_years starting_age n : Z) (g g' : Rng)
    (b : BatchResult) :
  run_batch early risk max_years starting_age n g = Ok (b, g') ->
  exists careers_data,
    foldM (simulate_entry early risk max_years starting_age) (range n) [] g
    = Ok (careers_data, g') /\
    unemployment_durations b
    = map (fun r => unemployed_years (cd_career r)) careers_data /\
    Forall (fun d => (0 <= d <= Z.max 0 max_years)%Z) (unemployment_durations b).
Proof.
  intros H. apply run_batch_unfold in H. destruct H as (cds & F & Z0 & ->).
  pose proof (foldM_partial (simulate_entry early risk max_years starting_age)
                (batch_tracks early risk max_years)
                (fun k a i g0 a' g1 =>
                   simulate_entry_tracks early risk max_years starting_age
                     k a i g0 a' g1)
                (range n) 0%nat [] g cds g') as T.
  destruct T as [_ Tr]; [split; [reflexivity | constructor] | exact F |].
  exists cds. split; [exact F |]. cbn [unemployment_durations].
  assert (E : map (fun r => len (unemployment_history (cd_profile r))) cds
              = map (fun r => unemployed_years (cd_career r)) cds).
  { apply map_ext_in. intros r Hr. rewrite Forall_forall in Tr.
    destruct (Tr r Hr) as (_ & _ & _ & _ & Un & _). exact Un. }
  split; [exact E |]. rewrite E.
  apply Forall_forall. intros d Hd. apply in_map_iff in Hd.
  destruct Hd as (r & <- & Hr). rewrite Forall_forall in Tr.
  destruct (Tr r Hr) as ((_ & Len & _) & Hd & _).
  unfold unemployed_years.
  destruct (cd_career r) as [| s path]; [discriminate |].
  simpl in Hd. inversion Hd; subst s. simpl in Len.
  rewrite count_occ_cons_neq by discriminate.
  pose proof (count_occ_bound string_dec "Unemployed" path). lia.
Qed.

Lemma unemployment_durations_are_unemployed_years_witness :
  exists b g',
    run_batch false "low" 2 22 1 (draws [0.5; 0.9; 0.5; 0.1]) = Ok (b, g') /\
    unemployment_durations b = [2%Z] /\
    exists careers_data,
      map cd_career careers_data
      = [["Entry Level"; "Unemployed"; "Unemployed"]] /\
      unemployment_durations b
      = map (fun r => unemployed_years (cd_career r)) careers_data.
Proof.
  destruct (run_batch false "low" 2 22 1 (draws [0.5; 0.9; 0.5; 0.1]))
    as [[b g'] | e] eqn:E.
  - exists b, g'. split; [reflexivity |].
    destruct (unemployment_durations_are_unemployed_years _ _ _ _ _ _ _ _ E)
      as (cds & F & U & _).
    vm_compute in E. injection E as Hb Hg. subst b.
    split; [reflexivity |].
    exists cds. split; [| exact U].
    vm_compute in F. injection F as Hc Hg'. subst cds. reflexivity.
  - vm_compute in E. discriminate E.
Defined.

(** ** The reported metrics *)

Section Metrics.
Context {np : Numpy}.

(** X11: the director probability that [run_simulation] reports is a
    fraction in [0,1]. *)
Theorem director_probability_is_fraction (config : Config) (g g' : Rng)
    (r : SimulationResult) :
  run_simulation config g = Ok (r, g') ->
  0 <= dp_mean (director_probability r) <= 1.
Proof.
  intros H. apply run_simulation_inv in H.
  destruct H as (P & cds & Inv & _ & -> & _).
  apply py_round_unit. apply fraction_unit.
  - apply director_plus_count_bounds.
  - exact (batch_nonempty _ _ _ P Inv).
Qed.

(** X12: in a returned result the confidence bounds are present exactly when
    [compute_ci] is set; the unemployment median and standard deviation are
    always present (their [None] branches are never taken); the retirement
    mean and standard deviation are present or absent together. *)
Theorem reported_metrics_presence (config : Config) (g g' : Rng)
    (r : SimulationResult) :
  run_simulation config g = Ok (r, g') ->
  (if config_get (cfg_compute_ci config) false
   then dp_ci_lower (director_probability r) <> None /\
        dp_ci_upper (director_probability r) <> None
   else dp_ci_lower (director_probability r) = None /\
        dp_ci_upper (director_probability r) = None) /\
  uy_median (unemployment_years r) <> None /\
  uy_std (unemployment_years r) <> None /\
  (ra_mean (retirement_age r) = None <-> ra_std (retirement_age r) = None).
Proof.
  unfold run_simulation. cbv zeta. intros H.
  apply bind_ok in H. destruct H as (b & g1 & Hb & H).
  apply run_batch_inv in Hb. destruct Hb as (P & cds & -> & Inv).
  pose proof (batch_nonempty _ _ _ P Inv) as Ne.
  apply bind_ok in H. destruct H as (dm & g2 & Hdm & H).
  apply bind_ok in H. destruct H as (pd & g3 & _ & H).
  unfold ret in H. inversion H; subst r g3. clear H.
  cbn [director_probability unemployment_years retirement_age
       unemployment_durations retire_ages].
  split; [| split; [| split]].
  - destruct (config_get (cfg_compute_ci config) false).
    + apply bind_ok in Hdm. destruct Hdm as (bp & g4 & _ & Hdm).
      destruct (np_percentile bp 2.5) as [lo | e]; [| discriminate].
      destruct (np_percentile bp 97.5) as [hi | e]; [| discriminate].
      unfold ret in Hdm. inversion Hdm; subst. simpl. split; discriminate.
    + unfold ret in Hdm. inversion Hdm; subst. simpl. auto.
  - destruct cds as [| c cds]; [unfold len in Ne; simpl in Ne; lia |].
    simpl. discriminate.
  - destruct cds as [| c cds]; [unfold len in Ne; simpl in Ne; lia |].
    simpl. discriminate.
  - destruct (map inject_Z (retirement_ages _ cds)); simpl; split;
      intros C; try reflexivity; discriminate C.
Qed.

(** X13: with no iteration to run ([iterations <= 0]) both entry points
    raise ZeroDivisionError, whatever the rest of the configuration;
    [run_comparative_analysis] stops on its first intervention. *)
Theorem empty_batch_divides_by_zero (g : Rng) :
  (forall config,
     (config_get (cfg_iterations config) 2500%Z <= 0)%Z ->
     run_simulation config g = Raise ZeroDivisionError) /\
  (forall iterations compute_ci,
     (iterations <= 0)%Z ->
     run_comparative_analysis iterations compute_ci g = Raise ZeroDivisionError).
Proof.
  split.
  - intros config N. apply run_simulation_empty. exact N.
  - intros iterations compute_ci N. unfold run_comparative_analysis.
    unfold bind at 1. rewrite run_simulation_empty by exact N. reflexivity.
Qed.

End Metrics.

Lemma director_probability_is_fraction_witness :
  exists r g',
    @run_simulation np_sample
      (mkConfig (Some "early") (Some "high") (Some 2%Z) (Some 1%Z)
                (Some 22%Z) (Some false) (Some 30%Z))
      (draws [0.5; 0.1; 0.5; 0.6]) = Ok (r, g') /\
    0 <= dp_mean (director_probability r) <= 1.
Proof.
  destruct (@run_simulation_returns np_sample
              (mkConfig (Some "early") (Some "high") (Some 2%Z) (Some 1%Z)
                        (Some 22%Z) (Some false) (Some 30%Z))
              (draws [0.5; 0.1; 0.5; 0.6]))
    as (r & g' & E); [reflexivity | reflexivity |].
  exists r, g'. split; [exact E |].
  exact (@director_probability_is_fraction np_sample _ _ _ _ E).
Defined.

Lemma reported_metrics_presence_witness :
  exists r g',
    @run_simulation np_sample
      (mkConfig (Some "none") (Some "medium") (Some 1%Z) (Some 2%Z)
                (Some 22%Z) (Some true) (Some 1%Z))
      (draws [0.5; 0.9; 0.5; 0.99; 0.5; 0.1; 0.5; 0.1]) = Ok (r, g') /\
    dp_ci_lower (director_probability r) <> None /\
    uy_median (unemployment_years r) <> None.
Proof.
  destruct (@run_simulation np_sample
              (mkConfig (Some "none") (Some "medium") (Some 1%Z) (Some 2%Z)
                        (Some 22%Z) (Some true) (Some 1%Z))
              (draws [0.5; 0.9; 0.5; 0.99; 0.5; 0.1; 0.5; 0.1]))
    as [[r g'] | e] eqn:E.
  - exists r, g'. split; [reflexivity |].
    destruct (@reported_metrics_presence np_sample _ _ _ _ E) as (Ci & Me & _).
    simpl in Ci. destruct Ci as [Lo _]. auto.
  - vm_compute in E. discriminate E.
Defined.

Lemma empty_batch_divides_by_zero_witness :
  @run_simulation np_sample
    (mkConfig (Some "early") (Some "low") (Some (-5)%Z) None None None None)
    (draws [])
  = Raise ZeroDivisionError /\
  @run_comparative_analysis np_sample 0 true (draws []) = Raise ZeroDivisionError.
Proof.
  destruct (@empty_batch_divides_by_zero np_sample (draws [])) as [S C].
  split.
  - apply S. simpl. lia.
  - apply C. lia.
Defined.

(** ** Keys of a modified row *)

Lemma extends_refl {V} (d : dict V) : extends d d.
Proof. exists []. now rewrite app_nil_r. Qed.

Lemma extends_trans {U V W} (a : dict U) (b : dict V) (c : dict W) :
  extends a b -> extends b c -> extends a c.
Proof.
  intros [x Hx] [y Hy]. exists (x ++ y). rewrite Hy, Hx, app_assoc. reflexivity.
Qed.

Lemma scale_extends (m : dict Q) (k : string) (c : Q) : extends m (scale m k c).
Proof.
  unfold scale, extends. rewrite dict_set_keys.
  destruct (dict_mem m k); [exists [] | exists [k]]; [| reflexivity].
  now rewrite app_nil_r.
Qed.

Lemma fold_extends (f : dict Q -> string -> dict Q) (l : list string) :
  (forall m x, extends m (f m x)) ->
  forall m, extends m (fold_left f l m).
Proof.
  intros Hf. induction l as [| x l IH]; intros m; simpl.
  - apply extends_refl.
  - eapply extends_trans; [apply Hf | apply IH].
Qed.

Lemma normalize_keys (m : dict Q) (t : Q) : keys (normalize m t) = keys m.
Proof. unfold keys, normalize. rewrite map_map. reflexivity. Qed.

Ltac extends_if :=
  match goal with
  | |- extends _ (if ?c then _ else _) => destruct c
  end.

Ltac extends_peel :=
  first
    [ apply extends_refl
    | extends_if
    | eapply extends_trans; [| apply scale_extends]
    | eapply extends_trans;
      [| apply fold_extends; intros ? ?;
         first [ apply scale_extends
               | extends_if; [apply scale_extends | apply extends_refl] ] ] ].

Lemma decision_modified_extends (p : CareerProfile) (row : dict Q) (s : string) :
  extends row (decision_modified p row s).
Proof. unfold decision_modified. cbv zeta. repeat extends_peel. Qed.

Lemma modifiers_keep_keys_base (p : CareerProfile) (row : dict Q) (s : string)
    (yw : Z) :
  extends row (apply_decision_modifiers p row s yw) /\
  (dict_get TRANSITIONS s = Some row ->
   keys (apply_decision_modifiers p row s yw) = keys row).
Proof.
  split.
  - unfold apply_decision_modifiers.
    destruct (Qltb 0 _).
    + destruct (decision_modified_extends p row s) as [x Hx].
      exists x. rewrite normalize_keys. exact Hx.
    + apply decision_modified_extends.
  - intros H. apply dict_get_In in H.
    unfold apply_decision_modifiers. rewrite modifiers_risk_class.
    assert (C : base_keys_checked = true) by (vm_compute; reflexivity).
    unfold base_keys_checked in C. rewrite forallb_forall in C.
    assert (E : In (early_specialization p) [true; false])
      by (destruct (early_specialization p); simpl; auto).
    specialize (C _ E). rewrite forallb_forall in C.
    assert (R : In (risk_class (risk_tolerance p)) ["high"; "low"; "medium"]).
    { unfold risk_class. destruct (String.eqb _ "high"); [simpl; auto |].
      destruct (String.eqb _ "low"); simpl; auto. }
    specialize (C _ R). rewrite forallb_forall in C.
    specialize (C _ H). unfold same_keys in C. cbn [fst snd] in C.
    unfold apply_decision_modifiers in C.
    destruct (list_eq_dec string_dec _ _) as [K | K]; [exact K | discriminate].
Qed.

(** X14: [apply_decision_modifiers] only reweights: for any row, the keys of
    the row come back first and in the same order (a boosted key that was
    missing is appended); for the rows of the base table the keys are
    exactly those of the row. *)
Theorem modifiers_keep_keys (p : CareerProfile) (row : dict Q) (s : string)
    (yw : Z) :
  extends row (apply_decision_modifiers p row s yw) /\
  (dict_get TRANSITIONS s = Some row ->
   keys (apply_decision_modifiers p row s yw) = keys row).
Proof. apply modifiers_keep_keys_base. Qed.

Lemma modifiers_keep_keys_witness :
  keys (apply_decision_modifiers (new_profile false "low")
          [("Unemployed", 0.40); ("Entry Level", 0.30); ("Junior", 0.18);
           ("Mid-Level", 0.10); ("Retired", 0.02)] "Unemployed" 4)
  = ["Unemployed"; "Entry Level"; "Junior"; "Mid-Level"; "Retired"].
Proof.
  apply (proj2 (modifiers_keep_keys (new_profile false "low")
                  [("Unemployed", 0.40); ("Entry Level", 0.30); ("Junior", 0.18);
                   ("Mid-Level", 0.10); ("Retired", 0.02)] "Unemployed" 4)).
  reflexivity.
Defined.

(** ** Retirement before the age floor *)

Lemma retired_rows (s : string) (row : dict Q) :
  dict_get TRANSITIONS s = Some row -> In "Retired" (keys row) ->
  s = "C-Suite" \/ s = "Retired" \/ s = "Unemployed".
Proof.
  intros H R. apply dict_get_In in H.
  assert (C : retired_rows_checked = true) by (vm_compute; reflexivity).
  unfold retired_rows_checked in C. rewrite forallb_forall in C.
  specialize (C _ H). cbn [fst snd] in C.
  assert (P : py_in "Retired" (keys row) = true).
  { unfold py_in. apply existsb_exists. exists "Retired". split; [exact R |].
    reflexivity. }
  rewrite P in C. simpl in C.
  rewrite !orb_true_iff, !String.eqb_eq in C.
  destruct C as [C | [C | [C | C]]]; auto. discriminate.
Qed.

Lemma floor_step (starting_age : Z) (n : nat) (st : career_loop) (year : Z)
    (g : Rng) (st' : career_loop) (g' : Rng) :
  floor_invariant starting_age n st g ->
  simulate_year st year g = Ok (st', g') ->
  floor_invariant starting_age (S n) st' g'.
Proof.
  intros (Pos & L & Cur & Age & Ex) H.
  assert (Goal1 :
    (forall i, 0 <= g' i) /\
    career_path st' = career_path st ++ [current_state st'] /\
    current_age st' = (current_age st + 1)%Z /\
    (current_state st' = "Retired" -> (current_age st + 1 < 55)%Z ->
     current_state st = "Retired" \/ current_state st = "Unemployed" \/
     current_state st = "C-Suite")).
  { unfold simulate_year in H.
    destruct (String.eqb_spec (current_state st) "Retired") as [R | R].
    - unfold ret in H. inversion H; subst st' g'. simpl. auto.
    - apply bind_ok in H. destruct H as (u & g1 & Hu & H).
      unfold random_random in Hu. inversion Hu; subst u g1. clear Hu.
      destruct (Qltb _ _) eqn:Q.
      + unfold ret in H. inversion H; subst st' g'. simpl.
        split; [intros i; apply Pos |]. split; [reflexivity |].
        split; [reflexivity |]. intros _ A.
        rewrite retirement_test_respects_floor in Q;
          [discriminate | exact R | exact A | apply Pos].
      + destruct (dict_get TRANSITIONS (current_state st)) as [row |] eqn:T;
          [| discriminate].
        apply bind_ok in H. destruct H as (next & g2 & Hc & H).
        apply random_choices_inv in Hc. destruct Hc as [Hin ->].
        unfold ret in H. inversion H; subst st' g'. simpl.
        split; [intros i; unfold shift; apply Pos |].
        split; [reflexivity |]. split; [reflexivity |]. intros N _.
        subst next.
        rewrite (proj2 (modifiers_keep_keys_base _ _ _ _) T) in Hin.
        destruct (retired_rows _ _ T Hin) as [C | [C | C]]; auto. }
  destruct Goal1 as (Pos' & P & Age' & Fl).
  unfold floor_invariant. split; [exact Pos' |]. rewrite P.
  split; [rewrite length_app; simpl; lia |].
  split; [rewrite nth_error_app2, L, Nat.sub_diag by lia; reflexivity |].
  split; [lia |].
  intros i Hi A.
  assert (Hs : (S i < length (career_path st))%nat \/ i = n).
  { assert (S i < length (career_path st ++ [current_state st']))%nat
      by (apply nth_error_Some; rewrite Hi; discriminate).
    rewrite length_app in H0. simpl in H0. lia. }
  destruct Hs as [Hs | ->].
  - rewrite nth_error_app1 in Hi by exact Hs.
    rewrite nth_error_app1 by lia. apply Ex; assumption.
  - rewrite nth_error_app2, L, Nat.sub_diag in Hi by lia. simpl in Hi.
    inversion Hi as [R].
    rewrite nth_error_app1 by lia. rewrite Cur.
    destruct (Fl R) as [C | [C | C]]; [lia | | |]; rewrite C; auto.
Qed.

(** X15: when the draws are non-negative, as those of [random.random()]
    are, a trajectory enters Retired before the age of 55 only from
    Unemployed or C-Suite, the two rows of the base table that offer
    Retired: the retirement test never fires below the floor. *)
Theorem early_retirement_only_through_table (max_years starting_age : Z)
    (profile : option CareerProfile) (g : Rng) :
  (forall i, 0 <= g i) ->
  exists path p g',
    simulate_career max_years starting_age profile g = Ok ((path, p), g') /\
    early_retirement_explained starting_age path.
Proof.
  intros Pos.
  destruct (simulate_career_ok max_years starting_age profile g)
    as (path & p & g' & E & _).
  exists path, p, g'. split; [exact E |].
  unfold simulate_career in E. apply bind_ok in E.
  destruct E as (st & g1 & F & E). unfold ret in E. inversion E; subst. clear E.
  pose proof (foldM_partial_rng simulate_year (floor_invariant starting_age)
                (fun n a b g2 a' g3 => floor_step starting_age n a b g2 a' g3)
                (range max_years) 0%nat
                (mkLoop "Entry Level" ["Entry Level"] starting_age
                   match profile with
                   | Some p0 => p0
                   | None => new_profile false "medium"
                   end) g st g') as T.
  destruct T as (_ & _ & _ & _ & Ex); [| exact F | exact Ex].
  unfold floor_invariant. cbn [career_path current_state current_age].
  split; [exact Pos |]. split; [reflexivity |]. split; [reflexivity |].
  split; [lia |]. intros i Hi. destruct i; discriminate.
Qed.

Lemma early_retirement_only_through_table_witness :
  exists path p g',
    simulate_career 45 22 None (draws [0.5; 0.9; 0.5; 0.99])
    = Ok ((path, p), g') /\
    nth_error path 1 = Some "Unemployed" /\
    nth_error path 2 = Some "Retired" /\
    early_retirement_explained 22 path.
Proof.
  destruct (early_retirement_only_through_table 45 22 None
              (draws [0.5; 0.9; 0.5; 0.99]))
    as (path & p & g' & E & Ex).
  - intros i. unfold draws.
    destruct i as [| [| [| [| i]]]]; simpl; try lra.
    destruct i; simpl; lra.
  - exists path, p, g'. split; [exact E |].
    vm_compute in E. injection E as Hpath Hp Hg. subst path.
    split; [reflexivity |]. split; [reflexivity | exact Ex].
Defined.

(** ** Retirement probability and the scores *)

Lemma py_min_mono (x y c : Q) : x <= y -> py_min x c <= py_min y c.
Proof.
  intros H. unfold py_min.
  destruct (Qltb c x) eqn:E1; destruct (Qltb c y) eqn:E2;
    try apply Qltb_true in E1; try apply Qltb_true in E2;
    try apply Qltb_false in E1; try apply Qltb_false in E2; lra.
Qed.

Lemma clamp_mono (x y : Q) :
  x <= y -> py_max 0 (py_min 1.0 x) <= py_max 0 (py_min 1.0 y).
Proof.
  intros H. unfold py_max, py_min.
  destruct (Qltb x 1.0) eqn:E1; destruct (Qltb y 1.0) eqn:E2;
    try apply Qltb_true in E1; try apply Qltb_true in E2;
    try apply Qltb_false in E1; try apply Qltb_false in E2;
    repeat match goal with
           | |- context [Qltb ?a ?b] =>
               let E := fresh "E" in
               destruct (Qltb a b) eqn:E;
               [apply Qltb_true in E | apply Qltb_false in E]
           end; lra.
Qed.

(** X16: for a given state and age the retirement probability does not
    decrease when burnout goes up and momentum goes down. *)
Theorem retirement_probability_monotone (p1 p2 : CareerProfile) (s : string)
    (years_worked age : Z) :
  burnout_score p1 <= burnout_score p2 ->
  momentum_score p2 <= momentum_score p1 ->
  get_retirement_probability p1 s years_worked age
  <= get_retirement_probability p2 s years_worked age.
Proof.
  intros B Mo. unfold get_retirement_probability.
  destruct (String.eqb s "Retired"); [lra |].
  destruct (age <? 55)%Z; [lra |]. cbv zeta.
  apply clamp_mono.
  assert (H1 : py_min (burnout_score p1 / 150) 0.15
               <= py_min (burnout_score p2 / 150) 0.15).
  { apply py_min_mono. unfold Qdiv. apply Qmult_le_compat_r; [exact B |].
    vm_compute. discriminate. }
  assert (H2 : py_min (momentum_score p2 / 80) 0.10
               <= py_min (momentum_score p1 / 80) 0.10).
  { apply py_min_mono. unfold Qdiv. apply Qmult_le_compat_r; [exact Mo |].
    vm_compute. discriminate. }
  lra.
Qed.

Lemma retirement_probability_monotone_witness :
  get_retirement_probability
    (mkProfile false "medium" [] 10 4 0%Z 2%Z) "Senior" 40 63
  <= get_retirement_probability
       (mkProfile false "medium" [] 30 1 1%Z 0%Z) "Senior" 40 63.
Proof.
  apply retirement_probability_monotone; simpl; lra.
Defined.

(** X17: for a given profile and state the retirement probability never
    decreases with age. *)
Theorem retirement_probability_grows_with_age (p : CareerProfile) (s : string)
    (years1 years2 age1 age2 : Z) :
  (age1 <= age2)%Z ->
  get_retirement_probability p s years1 age1
  <= get_retirement_probability p s years2 age2.
Proof.
  intros A. unfold get_retirement_probability.
  destruct (String.eqb s "Retired"); [lra |].
  destruct (Z.ltb_spec age1 55) as [A1 | A1].
  - destruct (age2 <? 55)%Z; [lra |]. cbv zeta.
    match goal with
    | |- _ <= py_max 0 ?x => pose proof (py_max_lower 0 x)
    end.
    lra.
  - destruct (Z.ltb_spec age2 55) as [A2 | A2]; [lia |]. cbv zeta.
    apply clamp_mono.
    set (bf := py_min (burnout_score p / 150) 0.15).
    set (mf := - py_min (momentum_score p / 80) 0.10).
    destruct (py_in s ["Entry Level"; "Junior"; "Mid-Level"]);
      destruct (py_in s ["C-Suite"; "VP"; "Director"]);
      destruct (String.eqb s "Unemployed");
      repeat match goal with
             | |- context [(?a <? ?b)%Z] => destruct (Z.ltb_spec a b); try lia
             | |- context [(?a >? ?b)%Z] => destruct (Z.gtb_spec a b); try lia
             end;
      cbn [andb]; lra.
Qed.

Lemma retirement_probability_grows_with_age_witness :
  get_retirement_probability (new_profile false "medium") "Senior" 35 57
  <= get_retirement_probability (new_profile false "medium") "Senior" 41 63.
Proof. apply retirement_probability_grows_with_age. lia. Defined.

(** ** Retired at the end *)

Lemma absorbing_last (path : list string) :
  absorbing path -> (In "Retired" path <-> last path "" = "Retired").
Proof.
  intros A. destruct path as [| s0 path0] using rev_ind.
  - simpl. split; [contradiction | discriminate].
  - clear IHpath0. rewrite last_last. split.
    + intros Hin. apply In_nth_error in Hin. destruct Hin as [i Hi].
      assert (Li : (i < length (path0 ++ [s0]))%nat)
        by (apply nth_error_Some; rewrite Hi; discriminate).
      rewrite length_app in Li. simpl in Li.
      assert (J : nth_error (path0 ++ [s0]) (length path0) = Some "Retired").
      { apply (A i (length path0)); [lia | | exact Hi].
        rewrite length_app. simpl. lia. }
      rewrite nth_error_app2, Nat.sub_diag in J by lia. simpl in J.
      congruence.
    + intros ->. apply in_or_app. right. now left.
Qed.

(** X18: a trajectory contains Retired exactly when its last entry is
    Retired, so the trajectories that contribute a retirement age are those
    whose final state is Retired. *)
Theorem retired_iff_ends_retired (max_years starting_age : Z)
    (profile : option CareerProfile) (g : Rng) :
  exists path p g',
    simulate_career max_years starting_age profile g = Ok ((path, p), g') /\
    (In "Retired" path <-> last path "" = "Retired").
Proof.
  destruct (simulate_career_ok max_years starting_age profile g)
    as (path & p & g' & E & _ & A & _).
  exists path, p, g'. split; [exact E | apply absorbing_last; exact A].
Qed.

(** ** Director or above *)

Lemma director_states (s : string) :
  (7 <= dict_get_default director_ranks s 0)%Z <->
  In s ["Director"; "VP"; "C-Suite"].
Proof.
  unfold dict_get_default, director_ranks, dict_get.
  repeat match goal with
         | |- context [String.eqb ?a s] =>
             destruct (String.eqb_spec a s) as [<- | ?]
         end;
    simpl; split; intros H; try lia; try tauto;
    repeat (destruct H as [H | H]; try congruence); try contradiction.
Qed.

Lemma high_rank_states (s : string) :
  (7 <= rank s)%Z <-> In s ["Director"; "VP"; "C-Suite"].
Proof.
  unfold rank, dict_get_default, state_ranks, dict_get.
  repeat match goal with
         | |- context [String.eqb ?a s] =>
             destruct (String.eqb_spec a s) as [<- | ?]
         end;
    simpl; split; intros H; try lia; try tauto;
    repeat (destruct H as [H | H]; try congruence); try contradiction.
Qed.

(** X19: the test behind the director-or-above rate,
    [state_ranks.get(peak, 0) >= 7], holds exactly for the careers that
    visit Director, VP or C-Suite at least once. *)
Theorem director_plus_means_reached (career : list string) :
  (dict_get_default director_ranks (get_peak_position career) 0 >=? 7)%Z = true
  <-> exists s, In s career /\ In s ["Director"; "VP"; "C-Suite"].
Proof.
  rewrite Z.geb_le, director_states.
  destruct (peak_rank_and_origin career) as [F O]. split.
  - intros H. exists (get_peak_position career). split; [| exact H].
    destruct O as [O | O]; [| exact O].
    rewrite O in H. simpl in H.
    repeat (destruct H as [H | H]; try discriminate H). contradiction.
  - intros (s & Hs & Hd). apply high_rank_states.
    apply high_rank_states in Hd. rewrite Forall_forall in F.
    specialize (F s Hs). lia.
Qed.

(** ** Gating of the modifier *)

(** X20: the specialization flag is read only in Entry Level, Junior,
    Senior, Lead, Manager, Director and VP: in every other state (Mid-Level,
    C-Suite, Unemployed, Retired, or any other string) two profiles with the
    same risk tolerance get the same row, whatever the row. *)
Theorem specialization_is_gated (p1 p2 : CareerProfile) (row : dict Q)
    (s : string) (yw1 yw2 : Z) :
  py_in s ["Entry Level"; "Junior"; "Senior"; "Lead";
           "Manager"; "Director"; "VP"] = false ->
  risk_tolerance p1 = risk_tolerance p2 ->
  apply_decision_modifiers p1 row s yw1 = apply_decision_modifiers p2 row s yw2.
Proof.
  intros G R. unfold apply_decision_modifiers.
  assert (E : decision_modified p1 row s = decision_modified p2 row s).
  { unfold decision_modified. rewrite R. unfold py_in in *. simpl in *.
    repeat (apply orb_false_iff in G; destruct G as [? G]).
    repeat match goal with
           | H : String.eqb s _ = false |- _ => rewrite H; clear H
           end.
    simpl. destruct (early_specialization p1), (early_specialization p2);
      reflexivity. }
  rewrite E. reflexivity.
Qed.

Lemma specialization_is_gated_witness :
  apply_decision_modifiers (new_profile true "high")
    [("Mid-Level", 0.50); ("Senior", 0.20); ("Lead", 0.05); ("Junior", 0.10);
     ("Unemployed", 0.15)] "Mid-Level" 3
  = apply_decision_modifiers (new_profile false "high")
      [("Mid-Level", 0.50); ("Senior", 0.20); ("Lead", 0.05); ("Junior", 0.10);
       ("Unemployed", 0.15)] "Mid-Level" 9.
Proof. apply specialization_is_gated; reflexivity. Defined.

Lemma normalize_by_one (row : dict Q) (t : Q) :
  t == 1 -> same_row (normalize row t) row.
Proof.
  intros T. unfold same_row, normalize.
  induction row as [| [k v] row IH]; simpl; constructor; auto.
  simpl. split; [reflexivity |]. rewrite T. field.
Qed.

Lemma base_rows_sum (s : string) (row : dict Q) :
  dict_get TRANSITIONS s = Some row -> Qsum (values row) == 1.
Proof.
  intros H. apply dict_get_In in H.
  assert (C : base_rows_sum_checked = true) by (vm_compute; reflexivity).
  unfold base_rows_sum_checked in C. rewrite forallb_forall in C.
  specialize (C _ H). apply Qeq_bool_iff in C. exact C.
Qed.

Lemma same_row_near (a b : dict Q) : same_row a b -> near_row a b.
Proof.
  unfold same_row, near_row. intros H.
  induction H as [| x y a b [K V] H IH]; constructor; [| exact IH].
  split; [exact K |].
  assert (Z0 : snd x - snd y == 0) by lra.
  rewrite Z0. vm_compute. discriminate.
Qed.

(** X21: a profile without early specialization whose risk tolerance is
    neither "high" nor "low" (the control) follows the base table: outside
    Manager, Director and VP the modified row has the keys of the base row
    and its probabilities within 1e-9 (over the rationals: exactly). *)
Theorem control_follows_base_table (p : CareerProfile) (s : string)
    (row : dict Q) (yw : Z) :
  dict_get TRANSITIONS s = Some row ->
  early_specialization p = false ->
  risk_tolerance p <> "high" -> risk_tolerance p <> "low" ->
  py_in s ["Manager"; "Director"; "VP"] = false ->
  near_row (apply_decision_modifiers p row s yw) row.
Proof.
  intros T E H L G.
  assert (D : decision_modified p row s = row).
  { unfold decision_modified. apply String.eqb_neq in H, L.
    rewrite E, H, L, G. reflexivity. }
  unfold apply_decision_modifiers. rewrite D.
  pose proof (base_rows_sum s row T) as S.
  apply same_row_near.
  destruct (Qltb 0 (Qsum (values row))) eqn:Q.
  - apply normalize_by_one. exact S.
  - apply Qltb_false in Q. lra.
Qed.

Lemma control_follows_base_table_witness :
  near_row
    (apply_decision_modifiers (new_profile false "medium")
       [("Unemployed", 0.40); ("Entry Level", 0.30); ("Junior", 0.18);
        ("Mid-Level", 0.10); ("Retired", 0.02)] "Unemployed" 7)
    [("Unemployed", 0.40); ("Entry Level", 0.30); ("Junior", 0.18);
     ("Mid-Level", 0.10); ("Retired", 0.02)].
Proof.
  apply (control_follows_base_table (new_profile false "medium") "Unemployed");
    try reflexivity; discriminate.
Defined.

(** ** The script [stupid_simulator.py] *)

Lemma clamp_nonpos (x : Q) : x <= 0 -> py_max 0 (py_min 1.0 x) == 0.
Proof.
  intros H. unfold py_max, py_min.
  destruct (Qltb x 1.0) eqn:E1.
  - destruct (Qltb 0 x) eqn:E2; [apply Qltb_true in E2; lra | reflexivity].
  - apply Qltb_false in E1. lra.
Qed.

(** X22: the retirement probability of the script is in [0,1] and is
    exactly 1.0 for Retired.  It has no age floor: at every age, also below
    50, a profile with a burnout score of 30 or more and no positive momentum
    retires with probability at least 0.15 from any state.  Below 50 the
    probability is 0 when the burnout score is not positive and the momentum
    score is not negative. *)
Theorem script_retirement_probability (profile : CareerProfile) (s : string)
    (years_worked age : Z) :
  0 <= StupidSimulator.get_retirement_probability profile s years_worked age <= 1 /\
  (s = "Retired" ->
   StupidSimulator.get_retirement_probability profile s years_worked age = 1.0) /\
  (30 <= burnout_score profile -> momentum_score profile <= 0 ->
   0.15 <= StupidSimulator.get_retirement_probability profile s years_worked age) /\
  (s <> "Retired" -> (age < 50)%Z ->
   burnout_score profile <= 0 -> 0 <= momentum_score profile ->
   StupidSimulator.get_retirement_probability profile s years_worked age == 0).
Proof.
  unfold StupidSimulator.get_retirement_probability.
  destruct (String.eqb_spec s "Retired") as [E | E].
  - split; [lra |]. split; [reflexivity |]. split; [intros; lra | contradiction].
  - cbv zeta. split; [apply clamp_unit |]. split; [contradiction |]. split.
    + intros B Mo.
      assert (Bf : 0.3 <= py_min (burnout_score profile / 100) 0.3).
      { unfold py_min. destruct (Qltb 0.3 _) eqn:Q; [lra |].
        assert (30 / 100 <= burnout_score profile / 100).
        { unfold Qdiv. apply Qmult_le_compat_r; [exact B |].
          vm_compute. discriminate. }
        assert (T : 30 / 100 == 0.3) by reflexivity. lra. }
      assert (Mf : py_min (momentum_score profile / 50) 0.2 <= 0).
      { assert (M0 : momentum_score profile / 50 <= 0).
        { unfold Qdiv. rewrite <- (Qmult_0_l (/ 50)).
          apply Qmult_le_compat_r; [exact Mo | vm_compute; discriminate]. }
        unfold py_min. destruct (Qltb 0.2 _) eqn:Q; [| exact M0].
        apply Qltb_true in Q. lra. }
      set (bf := py_min (burnout_score profile / 100) 0.3) in *.
      set (mf := py_min (momentum_score profile / 50) 0.2) in *.
      assert (C : forall x, 0.15 <= x -> 0.15 <= py_max 0 (py_min 1.0 x)).
      { intros x Hx. unfold py_max, py_min.
        destruct (Qltb x 1.0) eqn:Q1.
        - destruct (Qltb 0 x) eqn:Q2; [exact Hx |].
          apply Qltb_false in Q2. lra.
        - destruct (Qltb 0 1.0) eqn:Q2; [lra |].
          apply Qltb_false in Q2. lra. }
      apply C.
      destruct (py_in s ["Entry Level"; "Junior"; "Mid-Level"]);
        destruct (py_in s ["C-Suite"; "VP"; "Director"]);
        destruct (String.eqb s "Unemployed");
        destruct (age >? 60)%Z; destruct (age >? 55)%Z; cbn [andb];
        destruct (age <? 50)%Z; try lra;
        destruct (age <? 60)%Z; try lra;
        destruct (age <? 65)%Z; try lra;
        destruct (age <? 70)%Z; lra.
    + intros _ A B Mo.
      destruct (Z.ltb_spec age 50) as [_ | C]; [| lia].
      destruct (Z.gtb_spec age 60) as [C | _]; [lia |].
      destruct (Z.gtb_spec age 55) as [C | _]; [lia |].
      rewrite andb_false_r. cbn [andb].
      assert (Bf : py_min (burnout_score profile / 100) 0.3 <= 0).
      { unfold py_min. destruct (Qltb 0.3 _) eqn:Q.
        - apply Qltb_true in Q.
          assert (burnout_score profile / 100 <= 0).
          { unfold Qdiv. rewrite <- (Qmult_0_l (/ 100)).
            apply Qmult_le_compat_r; [exact B | vm_compute; discriminate]. }
          lra.
        - unfold Qdiv. rewrite <- (Qmult_0_l (/ 100)).
          apply Qmult_le_compat_r; [exact B | vm_compute; discriminate]. }
      assert (Mf : 0 <= py_min (momentum_score profile / 50) 0.2).
      { unfold py_min. destruct (Qltb 0.2 _); [lra |].
        unfold Qdiv. rewrite <- (Qmult_0_l (/ 50)).
        apply Qmult_le_compat_r; [exact Mo | vm_compute; discriminate]. }
      apply clamp_nonpos.
      destruct (py_in s ["C-Suite"; "VP"; "Director"]); lra.
Qed.

Lemma script_retirement_probability_witness :
  StupidSimulator.get_retirement_probability
    (new_profile false "medium") "Retired" 10 40 = 1.0 /\
  0.15 <= StupidSimulator.get_retirement_probability
            (mkProfile false "medium" [] 30 0 0%Z 0%Z) "Junior" 18 40 /\
  StupidSimulator.get_retirement_probability
    (new_profile false "medium") "Junior" 10 32 == 0.
Proof.
  split; [| split].
  - apply (proj1 (proj2 (script_retirement_probability
                           (new_profile false "medium") "Retired" 10 40))).
    reflexivity.
  - apply (proj1 (proj2 (proj2 (script_retirement_probability
                                  (mkProfile false "medium" [] 30 0 0%Z 0%Z)
                                  "Junior" 18 40)))); simpl; lra.
  - apply (proj2 (proj2 (proj2 (script_retirement_probability
                                  (new_profile false "medium") "Junior" 10 32))));
      [discriminate | lia | simpl; lra | simpl; lra].
Defined.

(** X23: in the script the risk tolerance is read only while Unemployed: in
    any other state two profiles with the same specialization flag get the
    same row, whatever the row. *)
Theorem script_risk_only_when_unemployed (p1 p2 : CareerProfile) (row : dict Q)
    (s : string) (yw1 yw2 : Z) :
  s <> "Unemployed" ->
  early_specialization p1 = early_specialization p2 ->
  StupidSimulator.apply_decision_modifiers p1 row s yw1
  = StupidSimulator.apply_decision_modifiers p2 row s yw2.
Proof.
  intros U E. unfold StupidSimulator.apply_decision_modifiers.
  assert (D : StupidSimulator.decision_modified p1 row s
              = StupidSimulator.decision_modified p2 row s).
  { unfold StupidSimulator.decision_modified. apply String.eqb_neq in U.
    rewrite U, E. reflexivity. }
  rewrite D. reflexivity.
Qed.

Lemma script_risk_only_when_unemployed_witness :
  StupidSimulator.apply_decision_modifiers (new_profile false "high")
    [("Director", 0.60); ("VP", 0.10); ("Manager", 0.15); ("Unemployed", 0.15)]
    "Director" 20
  = StupidSimulator.apply_decision_modifiers (new_profile false "low")
      [("Director", 0.60); ("VP", 0.10); ("Manager", 0.15); ("Unemployed", 0.15)]
      "Director" 21.
Proof.
  apply script_risk_only_when_unemployed; [discriminate | reflexivity].
Defined.

Lemma script_modifiers_risk_class (p : CareerProfile) (row : dict Q) (s : string) :
  StupidSimulator.decision_modified p row s =
  StupidSimulator.decision_modified
    (new_profile (early_specialization p) (risk_class (risk_tolerance p))) row s.
Proof.
  unfold StupidSimulator.decision_modified, risk_class. simpl.
  destruct (String.eqb (risk_tolerance p) "high"); [reflexivity |].
  destruct (String.eqb (risk_tolerance p) "low"); reflexivity.
Qed.

(** X24: for every profile and every state with a row in the script's
    table, the row returned by the script's modifier sums to 1.0 within 1e-9
    (over the rationals: exactly), holds no negative probability, and its
    keys are states. *)
Theorem script_modified_row_is_distribution (p : CareerProfile) (s : string)
    (row : dict Q) (yw : Z) :
  dict_get StupidSimulator.TRANSITIONS s = Some row ->
  Qabs (Qsum (values (StupidSimulator.apply_decision_modifiers p row s yw)) - 1)
    <= 1e-9 /\
  Forall (fun v => 0 <= v)
         (values (StupidSimulator.apply_decision_modifiers p row s yw)) /\
  incl (keys (StupidSimulator.apply_decision_modifiers p row s yw)) STATES.
Proof.
  intros H. apply dict_get_In in H.
  assert (K : row_ok (StupidSimulator.apply_decision_modifiers p row s yw) = true).
  { unfold StupidSimulator.apply_decision_modifiers.
    rewrite script_modifiers_risk_class.
    assert (C : StupidSimulator.base_rows_checked = true)
      by (vm_compute; reflexivity).
    unfold StupidSimulator.base_rows_checked in C. rewrite forallb_forall in C.
    assert (E : In (early_specialization p) [true; false])
      by (destruct (early_specialization p); simpl; auto).
    specialize (C _ E). rewrite forallb_forall in C.
    assert (R : In (risk_class (risk_tolerance p)) ["high"; "low"; "medium"]).
    { unfold risk_class. destruct (String.eqb _ "high"); [simpl; auto |].
      destruct (String.eqb _ "low"); simpl; auto. }
    specialize (C _ R). rewrite forallb_forall in C.
    exact (C _ H). }
  apply row_ok_spec in K. destruct K as (I & S & V).
  split; [| split; [exact V | exact I]].
  assert (Z0 : Qsum (values (StupidSimulator.apply_decision_modifiers p row s yw))
               - 1 == 0) by lra.
  rewrite Z0. vm_compute. discriminate.
Qed.

Lemma script_modified_row_is_distribution_witness :
  let m := StupidSimulator.apply_decision_modifiers (new_profile false "high")
             [("Unemployed", 0.50); ("Entry Level", 0.25); ("Junior", 0.15);
              ("Mid-Level", 0.08); ("Retired", 0.02)] "Unemployed" 5 in
  Qabs (Qsum (values m) - 1) <= 1e-9 /\ Forall (fun v => 0 <= v) (values m) /\
  incl (keys m) STATES.
Proof.
  apply (script_modified_row_is_distribution (new_profile false "high")
           "Unemployed").
  reflexivity.
Defined.
